(** * The SQL agent's tools: [execute_sql], [get_schema], [save_data_to_csv]

    A shallow embedding of [src/tools.py].  The three tools are small
    programs over three external systems: a SQLite connection, the process'
    standard output and the file system.  The Python builtins they use
    ([str], [repr], [str.lower], [str.endswith], [os.path.join],
    [os.path.abspath], the default [csv.writer] dialect) are modelled as
    executable functions; the stateful systems (the [sqlite3] module, the
    operating system) are interfaces, instantiated by two small reference
    implementations used to run the tools on concrete inputs.

    Text is a [string]: a sequence of code points below 256 (Latin-1).
    [REAL] values are outside the model. *)

From Stdlib Require Import ZArith Ascii String List DecimalString DecimalZ.
From stdpp Require Import base option list gmap strings.

Set Warnings "-register-all".

Local Open Scope Z_scope.

(* appending to a literal computes *)
#[local] Arguments String.append : simpl nomatch.

(** ** Characters and strings *)

Definition squote : ascii := "039"%char.
Definition dquote : ascii := "034"%char.
Definition backslash : ascii := "092"%char.
Definition char_tab : ascii := "009"%char.
Definition char_lf : ascii := "010"%char.
Definition char_cr : ascii := "013"%char.
Definition comma : ascii := ","%char.
Definition slash : ascii := "/"%char.

Definition code (c : ascii) : N := N_of_ascii c.

Definition str1 (c : ascii) : string := String c EmptyString.

(** [c in s] for a character. *)
Fixpoint contains (c : ascii) (s : string) : bool :=
  match s with
  | EmptyString => false
  | String d s' => if Ascii.eqb c d then true else contains c s'
  end.

(** Every character of [s] satisfies [p]. *)
Fixpoint all_chars (p : ascii -> bool) (s : string) : bool :=
  match s with
  | EmptyString => true
  | String c s' => p c && all_chars p s'
  end.

(** [s.startswith(p)] and [s.endswith(p)]. *)
Fixpoint startswith (s p : string) {struct p} : bool :=
  match p, s with
  | EmptyString, _ => true
  | String a p', String b s' => Ascii.eqb a b && startswith s' p'
  | String _ _, EmptyString => false
  end.

Fixpoint rev_string (s : string) : string :=
  match s with
  | EmptyString => EmptyString
  | String c s' => rev_string s' +:+ str1 c
  end.

Definition endswith (s p : string) : bool :=
  startswith (rev_string s) (rev_string p).

(** [str.lower] on Latin-1: the capitals are A-Z, and 0xC0-0xDE without
    the multiplication sign 0xD7; each is 32 below its small letter. *)
Definition is_upper (c : ascii) : bool :=
  let n := code c in
  ((65 <=? n) && (n <=? 90) ||
   (192 <=? n) && (n <=? 222) && negb (n =? 215))%N.

Definition lower_char (c : ascii) : ascii :=
  if is_upper c then ascii_of_N (code c + 32) else c.

Fixpoint lower (s : string) : string :=
  match s with
  | EmptyString => EmptyString
  | String c s' => String (lower_char c) (lower s')
  end.

(** [sep.join(parts)]. *)
Fixpoint join (sep : string) (parts : list string) : string :=
  match parts with
  | [] => EmptyString
  | [p] => p
  | p :: ps => p +:+ sep +:+ join sep ps
  end.

(** ** Python values

    The values the tools see: rows coming from SQLite hold [None], [int],
    [str] and [bytes]; the data handed to the CSV exporter is an arbitrary
    nesting of lists and tuples over scalars. *)

Inductive pyval : Type :=
| VNone
| VBool (b : bool)
| VInt (z : Z)
| VStr (s : string)
| VBytes (s : string)
| VTuple (vs : list pyval)
| VList (vs : list pyval).

(** A value of a SQLite result row. *)
Inductive sqlval : Type :=
| SqlNull
| SqlInt (z : Z)
| SqlText (s : string)
| SqlBlob (s : string).

Definition py_of_sql (v : sqlval) : pyval :=
  match v with
  | SqlNull => VNone
  | SqlInt z => VInt z
  | SqlText s => VStr s
  | SqlBlob s => VBytes s
  end.

(** A fetched row is a tuple. *)
Definition row : Type := list sqlval.
Definition py_of_row (r : row) : pyval := VTuple (map py_of_sql r).
Definition py_of_rows (rs : list row) : pyval := VList (map py_of_row rs).

(** *** [repr] and [str] *)

Definition hex_digit (n : N) : ascii :=
  match String.get (N.to_nat n) "0123456789abcdef" with
  | Some c => c
  | None => "0"%char
  end.

Definition hex_escape (c : ascii) : string :=
  String backslash (String "x"%char
    (String (hex_digit (code c / 16)) (str1 (hex_digit (code c mod 16))))).

(** The quote [repr] delimits with: a double quote iff the text has a
    single quote and no double quote. *)
Definition repr_quote (s : string) : ascii :=
  if contains squote s && negb (contains dquote s) then dquote else squote.

(** [str.isprintable] for a code point of 128..255. *)
Definition latin1_printable (c : ascii) : bool :=
  ((161 <=? code c) && negb (code c =? 173))%N.

Definition repr_str_char (q c : ascii) : string :=
  if Ascii.eqb c q || Ascii.eqb c backslash then String backslash (str1 c)
  else if Ascii.eqb c char_tab then String backslash "t"
  else if Ascii.eqb c char_lf then String backslash "n"
  else if Ascii.eqb c char_cr then String backslash "r"
  else if ((code c <? 32) || (code c =? 127))%N then hex_escape c
  else if (code c <? 127)%N then str1 c
  else if latin1_printable c then str1 c
  else hex_escape c.

Definition repr_bytes_char (q c : ascii) : string :=
  if Ascii.eqb c q || Ascii.eqb c backslash then String backslash (str1 c)
  else if Ascii.eqb c char_tab then String backslash "t"
  else if Ascii.eqb c char_lf then String backslash "n"
  else if Ascii.eqb c char_cr then String backslash "r"
  else if ((code c <? 32) || (127 <=? code c))%N then hex_escape c
  else str1 c.

Fixpoint escape_with (f : ascii -> string) (s : string) : string :=
  match s with
  | EmptyString => EmptyString
  | String c s' => f c +:+ escape_with f s'
  end.

Definition repr_str (s : string) : string :=
  let q := repr_quote s in
  String q (escape_with (repr_str_char q) s +:+ str1 q).

Definition repr_bytes (s : string) : string :=
  let q := repr_quote s in
  String "b"%char (String q (escape_with (repr_bytes_char q) s +:+ str1 q)).

Definition repr_int (z : Z) : string := NilZero.string_of_int (Z.to_int z).

Fixpoint py_repr (v : pyval) : string :=
  match v with
  | VNone => "None"
  | VBool true => "True"
  | VBool false => "False"
  | VInt z => repr_int z
  | VStr s => repr_str s
  | VBytes s => repr_bytes s
  | VTuple vs =>
      match vs with
      | [x] => "(" +:+ py_repr x +:+ ",)"
      | _ => "(" +:+ join ", " (map py_repr vs) +:+ ")"
      end
  | VList vs => "[" +:+ join ", " (map py_repr vs) +:+ "]"
  end.

(** [str(v)]: a [str] is itself, everything else is its [repr]. *)
Definition py_str (v : pyval) : string :=
  match v with
  | VStr s => s
  | _ => py_repr v
  end.

(** Truthiness of an optional string, as in [if table_name:] and
    [table_name or 'all tables']. *)
Definition truthy_opt_str (o : option string) : bool :=
  match o with
  | Some (String _ _) => true
  | _ => false
  end.

Definition opt_str_or (o : option string) (d : string) : string :=
  match o with
  | Some (String c s) => String c s
  | _ => d
  end.

(** ** Exceptions and outcomes

    Every exception the library calls of the tools raise is an instance of
    [Exception]; what the handlers tell apart is whether it is an instance
    of [sqlite3.Error].  [OtherException] stands for the rest
    ([sqlite3.Warning], [OSError], [ValueError], [IndexError], ...). *)

Inductive exn : Type :=
| Sqlite3Error (cls msg : string)
| OtherException (cls msg : string).

(** [str(e)]. *)
Definition exn_str (e : exn) : string :=
  match e with
  | Sqlite3Error _ m => m
  | OtherException _ m => m
  end.

(** [isinstance(e, sqlite3.Error)]. *)
Definition is_sqlite3_Error (e : exn) : bool :=
  match e with
  | Sqlite3Error _ _ => true
  | OtherException _ _ => false
  end.

(** [isinstance(e, Exception)]. *)
Definition is_Exception (e : exn) : bool := true.

Inductive outcome (A : Type) : Type :=
| Return (a : A)
| Raise (e : exn).
Arguments Return {A} a.
Arguments Raise {A} e.

Definition returns {A} (o : outcome A) : bool :=
  match o with
  | Return _ => true
  | Raise _ => false
  end.

(** ** The external systems *)

(** The part of the [sqlite3] module the tools call.  A [connection] is the
    state of a Connection object together with its database; a [cursor] is
    the state of a Cursor after [execute].  Each call may change the
    connection, and may raise. *)
Class Sqlite3 : Type := {
  connection : Type;
  cursor : Type;
  (** [conn.cursor()] *)
  conn_cursor : connection -> outcome unit * connection;
  (** [cursor.execute(sql)] *)
  cursor_execute : string -> connection -> outcome cursor * connection;
  (** [cursor.description]: [None], or the column names *)
  cursor_description : cursor -> option (list string);
  (** [cursor.fetchall()] *)
  cursor_fetchall : cursor -> connection -> outcome (list row) * connection;
  (** [conn.commit()] *)
  conn_commit : connection -> outcome unit * connection;
}.

(** The part of the operating system the CSV exporter calls. *)
Class Os : Type := {
  filesystem : Type;
  file : Type;
  (** [os.getcwd()] *)
  os_getcwd : filesystem -> outcome string * filesystem;
  (** [os.makedirs(path, exist_ok=True)] *)
  os_makedirs : string -> filesystem -> outcome unit * filesystem;
  (** [open(path, 'w', newline='', encoding='utf-8')] *)
  open_w : string -> filesystem -> outcome file * filesystem;
  (** [f.write(text)] *)
  file_write : file -> string -> filesystem -> outcome unit * filesystem;
  (** [f.close()] *)
  file_close : file -> filesystem -> outcome unit * filesystem;
}.

(** A list object of the Python heap is named by its location; two
    references to one list are the same location. *)
Definition loc : Type := nat.

(** ** POSIX paths ([os.path]) *)

Definition isabs (p : string) : bool := startswith p "/".

(** [os.path.join(a, b)] *)
Definition path_join (a b : string) : string :=
  if startswith b "/" then b
  else if String.eqb a "" || endswith a "/" then a +:+ b
  else a +:+ "/" +:+ b.

(** [path.split('/')] *)
Fixpoint split_slash (acc : string) (p : string) : list string :=
  match p with
  | EmptyString => [rev_string acc]
  | String c p' =>
      if Ascii.eqb c slash then rev_string acc :: split_slash "" p'
      else split_slash (String c acc) p'
  end.

(** The loop of [normpath] over the components; [new_comps] is kept
    reversed (its last element first). *)
Fixpoint norm_comps (initial_slashes : nat) (new_comps : list string)
    (comps : list string) : list string :=
  match comps with
  | [] => rev new_comps
  | comp :: rest =>
      if String.eqb comp "" || String.eqb comp "." then
        norm_comps initial_slashes new_comps rest
      else if negb (String.eqb comp "..")
              || (Nat.eqb initial_slashes 0 && bool_decide (new_comps = []))
              || (match new_comps with
                  | last :: _ => String.eqb last ".."
                  | [] => false
                  end) then
        norm_comps initial_slashes (comp :: new_comps) rest
      else
        norm_comps initial_slashes (tl new_comps) rest
  end.

Definition normpath (path : string) : string :=
  if String.eqb path "" then "."
  else
    let initial_slashes :=
      if startswith path "/" then
        if startswith path "//" && negb (startswith path "///") then 2%nat
        else 1%nat
      else 0%nat in
    let comps := norm_comps initial_slashes [] (split_slash "" path) in
    let p := join "/" comps in
    let p := match initial_slashes with
             | 0%nat => p
             | 1%nat => "/" +:+ p
             | _ => "//" +:+ p
             end in
    if String.eqb p "" then "." else p.

(** ** The default [csv.writer] dialect

    Comma delimiter, double-quote quote character, minimal quoting, doubled
    quotes, line terminator CR LF. *)

Definition csv_field_text (v : pyval) : string :=
  match v with
  | VNone => ""
  | _ => py_str v
  end.

Definition csv_needs_quote (s : string) : bool :=
  contains comma s || contains dquote s || contains char_cr s || contains char_lf s.

Definition csv_double_quote (c : ascii) : string :=
  if Ascii.eqb c dquote then String dquote (str1 dquote) else str1 c.

Definition csv_quoted (s : string) : string :=
  String dquote (escape_with csv_double_quote s +:+ str1 dquote).

Definition csv_field (v : pyval) : string :=
  let s := csv_field_text v in
  if csv_needs_quote s then csv_quoted s else s.

Definition csv_lineterminator : string := String char_cr (str1 char_lf).

(** The line [writer.writerow(fields)] writes; a record made of a single
    empty field is written as a pair of quotes. *)
Definition csv_line (fields : list pyval) : string :=
  let rec := join "," (map csv_field fields) in
  (if bool_decide (fields <> []) && String.eqb rec "" then csv_quoted "" else rec)
  +:+ csv_lineterminator.

(** ** The tools *)

Section ToolMonad.
Context {DB : Sqlite3} {OS : Os}.

(** The state the tools run in: the connection handed to them, the list
    objects of the heap (the query history is one), what was printed, and
    the file system. *)
Record world : Type := World {
  w_conn : connection;
  w_heap : gmap loc (list string);
  w_stdout : list string;
  w_fs : filesystem;
}.

(** A computation changes the world and returns or raises; the world
    changes made before an exception stay. *)
Definition M (A : Type) : Type := world -> outcome A * world.

Definition ret {A} (a : A) : M A := fun w => (Return a, w).

Definition raise {A} (e : exn) : M A := fun w => (Raise e, w).

Definition bind {A B} (c : M A) (k : A -> M B) : M B :=
  fun w =>
    match c w with
    | (Return a, w') => k a w'
    | (Raise e, w') => (Raise e, w')
    end.

(** [try: body except <catches> as e: handler] *)
Definition try_except {A} (body : M A) (catches : exn -> bool)
    (handler : exn -> M A) : M A :=
  fun w =>
    match body w with
    | (Return a, w') => (Return a, w')
    | (Raise e, w') => if catches e then handler e w' else (Raise e, w')
    end.

Definition lift_outcome {A} (o : outcome A) : M A := fun w => (o, w).

Definition lift_db {A} (f : connection -> outcome A * connection) : M A :=
  fun w =>
    let (o, c) := f (w_conn w) in
    (o, World c (w_heap w) (w_stdout w) (w_fs w)).

Definition lift_fs {A} (f : filesystem -> outcome A * filesystem) : M A :=
  fun w =>
    let (o, fs) := f (w_fs w) in
    (o, World (w_conn w) (w_heap w) (w_stdout w) fs).

(** [print(line)] *)
Definition print (line : string) : M unit :=
  fun w => (Return tt, World (w_conn w) (w_heap w) (w_stdout w ++ [line]) (w_fs w)).

(** [lst.append(x)] on the list object at [l]. *)
Definition list_append (l : loc) (x : string) : M unit :=
  fun w =>
    (Return tt,
     World (w_conn w) (alter (fun h => h ++ [x]) l (w_heap w)) (w_stdout w) (w_fs w)).

End ToolMonad.

Notation "x <~ c ;; k" := (bind c (fun x => k))
  (at level 100, c at next level, right associativity).
Notation "c ;;; k" := (bind c (fun _ => k))
  (at level 100, right associativity).

Section ToolDefinitions.
Context {DB : Sqlite3} {OS : Os}.

(** [if cursor.description:] *)
Definition truthy_description (d : option (list string)) : bool :=
  match d with
  | Some (_ :: _) => true
  | _ => false
  end.

(** [execute_sql(conn, query, query_history)]; [conn] is the connection of
    the world, [query_history] the location of the history list or [None]. *)
Definition execute_sql (query : string) (query_history : option loc) : M string :=
  print ("   [BEGIN Tool Action] Executing SQL: " +:+ query +:+ " [END Tool Action]") ;;;
  match query_history with
  | Some l => list_append l query
  | None => ret tt
  end ;;;
  try_except
    (lift_db conn_cursor ;;;
     cursor <~ lift_db (cursor_execute query) ;;
     if truthy_description (cursor_description cursor) then
       rows <~ lift_db (cursor_fetchall cursor) ;;
       ret (py_str (py_of_rows rows))
     else
       lift_db conn_commit ;;;
       ret "Query executed successfully (no data returned).")
    is_sqlite3_Error
    (fun e =>
       print ("   [ERROR] " +:+ exn_str e) ;;;
       ret ("Error: " +:+ exn_str e)).

(** [t[i]] on a tuple. *)
Definition py_index (t : row) (i : nat) : outcome pyval :=
  match nth_error t i with
  | Some v => Return (py_of_sql v)
  | None => Raise (OtherException "IndexError" "tuple index out of range")
  end.

(** A list comprehension [[f(x) for x in xs]] whose element may raise. *)
Fixpoint comprehension {A B} (f : A -> outcome B) (xs : list A) : outcome (list B) :=
  match xs with
  | [] => Return []
  | x :: xs' =>
      match f x with
      | Raise e => Raise e
      | Return y =>
          match comprehension f xs' with
          | Raise e => Raise e
          | Return ys => Return (y :: ys)
          end
      end
  end.

(** [(col[1], col[2])] *)
Definition column_pair (col : row) : outcome pyval :=
  match py_index col 1 with
  | Raise e => Raise e
  | Return name =>
      match py_index col 2 with
      | Raise e => Raise e
      | Return type => Return (VTuple [name; type])
      end
  end.

Definition list_tables_sql : string :=
  "SELECT name FROM sqlite_master WHERE type='table';".

Definition table_info_sql (table_name : string) : string :=
  "PRAGMA table_info(" +:+ table_name +:+ ");".

(** [get_schema(conn, table_name)] *)
Definition get_schema (table_name : option string) : M string :=
  print ("   [Tool Action] Getting schema for: " +:+ opt_str_or table_name "all tables") ;;;
  lift_db conn_cursor ;;;
  match table_name with
  | Some (String c s) =>
      cursor <~ lift_db (cursor_execute (table_info_sql (String c s))) ;;
      columns <~ lift_db (cursor_fetchall cursor) ;;
      pairs <~ lift_outcome (comprehension column_pair columns) ;;
      ret (py_str (VList pairs))
  | _ =>
      cursor <~ lift_db (cursor_execute list_tables_sql) ;;
      tables <~ lift_db (cursor_fetchall cursor) ;;
      names <~ lift_outcome (comprehension (fun table => py_index table 0) tables) ;;
      ret (py_str (VList names))
  end.

(** [list(row) if isinstance(row, (list, tuple)) else [row]] *)
Definition normalize_row (r : pyval) : list pyval :=
  match r with
  | VList vs => vs
  | VTuple vs => vs
  | _ => [r]
  end.

(** The file name with its extension ensured. *)
Definition ensure_csv (filename : string) : string :=
  if negb (endswith (lower filename) ".csv") then filename +:+ ".csv"
  else filename.

(** [with open(path, 'w', ...) as f: body]: the file is closed on the way
    out, also when the body raised. *)
Definition with_open {A} (path : string) (body : file -> M A) : M A :=
  f <~ lift_fs (open_w path) ;;
  fun w =>
    match body f w with
    | (Return a, w1) => (lift_fs (file_close f) ;;; ret a) w1
    | (Raise e, w1) => (lift_fs (file_close f) ;;; raise e) w1
    end.

(** [writer.writerows(rows)]: one [write] per row. *)
Fixpoint writerows (f : file) (rows : list (list pyval)) : M unit :=
  match rows with
  | [] => ret tt
  | r :: rows' => lift_fs (file_write f (csv_line r)) ;;; writerows f rows'
  end.

(** [os.path.abspath(path)] *)
Definition abspath (path : string) : M string :=
  if isabs path then ret (normpath path)
  else cwd <~ lift_fs os_getcwd ;; ret (normpath (path_join cwd path)).

(** [isinstance(data, list)] and the elements of a list. *)
Definition isinstance_list (v : pyval) : bool :=
  match v with
  | VList _ => true
  | _ => false
  end.

Definition list_items (v : pyval) : list pyval :=
  match v with
  | VList vs => vs
  | _ => []
  end.

(** The body of the [try] block of [save_data_to_csv]. *)
Definition save_body (data : pyval) (filename : string) : M string :=
  if negb (isinstance_list data) then
    ret "Error: Data must be a list of tuples or lists."
  else
    let rows := map normalize_row (list_items data) in
    let filename := ensure_csv filename in
    cwd <~ lift_fs os_getcwd ;;
    let base_dir := path_join cwd "files" in
    lift_fs (os_makedirs base_dir) ;;;
    let file_path := path_join base_dir filename in
    with_open file_path (fun f => writerows f rows) ;;;
    abs_path <~ abspath file_path ;;
    ret ("Data saved successfully to: " +:+ abs_path).

(** [save_data_to_csv(data, filename)] *)
Definition save_data_to_csv (data : pyval) (filename : string) : M string :=
  print ("   [Tool Action] Saving data to " +:+ filename +:+ "...") ;;;
  try_except (save_body data filename) is_Exception
    (fun e => ret ("Error saving CSV: " +:+ exn_str e)).

End ToolDefinitions.

(** ** A reference database

    A small engine behind the [Sqlite3] interface: tables of named, typed
    columns, a working state and the last committed state.  It understands
    the two catalog queries of [get_schema] and a handful of statements,
    and answers everything else with a syntax error, as SQLite does. *)

Module RefDb.

Record table : Type := Table {
  t_name : string;
  t_cols : list (string * string);
  t_rows : list row;
}.

Record conn : Type := Conn {
  c_tables : list table;
  c_committed : list table;
  c_closed : bool;
}.

Record cur : Type := Cur {
  cur_description : option (list string);
  cur_rows : list row;
}.

Definition is_ident_char (c : ascii) : bool :=
  let n := code c in
  ((48 <=? n) && (n <=? 57) || (65 <=? n) && (n <=? 90)
   || (97 <=? n) && (n <=? 122) || (n =? 95))%N.

Definition is_ident (s : string) : bool :=
  negb (String.eqb s "") && all_chars is_ident_char s.

Fixpoint find_table (name : string) (ts : list table) : option table :=
  match ts with
  | [] => None
  | t :: ts' => if String.eqb (t_name t) name then Some t else find_table name ts'
  end.

(** [s] without the prefix [p], when it starts with it. *)
Fixpoint strip_prefix (p s : string) : option string :=
  match p, s with
  | EmptyString, _ => Some s
  | String a p', String b s' => if Ascii.eqb a b then strip_prefix p' s' else None
  | _, _ => None
  end.

Definition strip_suffix (p s : string) : option string :=
  match strip_prefix (rev_string p) (rev_string s) with
  | Some r => Some (rev_string r)
  | None => None
  end.

Fixpoint first_word (s : string) : string :=
  match s with
  | EmptyString => EmptyString
  | String c s' => if Ascii.eqb c " " then EmptyString else String c (first_word s')
  end.

Definition syntax_error (near : string) : exn :=
  Sqlite3Error "OperationalError"
    ("near " +:+ String dquote (near +:+ String dquote ": syntax error")).

Definition no_such_table (name : string) : exn :=
  Sqlite3Error "OperationalError" ("no such table: " +:+ name).

Fixpoint table_info_rows (cid : Z) (cols : list (string * string)) : list row :=
  match cols with
  | [] => []
  | (n, ty) :: cols' =>
      [SqlInt cid; SqlText n; SqlText ty; SqlInt 0; SqlNull; SqlInt 0]
      :: table_info_rows (cid + 1) cols'
  end.

Definition users_cols : list (string * string) :=
  [("id", "INTEGER"); ("name", "TEXT")].

Definition execute (sql : string) (c : conn) : outcome cur * conn :=
  let tables := c_tables c in
  let update ts := Conn ts (c_committed c) (c_closed c) in
  if String.eqb sql list_tables_sql then
    (Return (Cur (Some ["name"]) (map (fun t => [SqlText (t_name t)]) tables)), c)
  else
  match strip_prefix "PRAGMA table_info(" sql with
  | Some rest =>
      match strip_suffix ");" rest with
      | Some name =>
          if is_ident name then
            let rows :=
              match find_table name tables with
              | Some t => table_info_rows 0 (t_cols t)
              | None => []
              end in
            (Return (Cur (Some ["cid"; "name"; "type"; "notnull"; "dflt_value"; "pk"])
                         rows), c)
          else (Raise (syntax_error (first_word (rev_string (first_word (rev_string name))))), c)
      | None => (Raise (syntax_error "PRAGMA"), c)
      end
  | None =>
  match strip_prefix "SELECT * FROM " sql with
  | Some name =>
      match find_table name tables with
      | Some t => (Return (Cur (Some (map fst (t_cols t))) (t_rows t)), c)
      | None => (Raise (no_such_table name), c)
      end
  | None =>
  if String.eqb sql "SELECT 1" then
    (Return (Cur (Some ["1"]) [[SqlInt 1]]), c)
  else if String.eqb sql "CREATE TABLE users (id INTEGER, name TEXT)" then
    match find_table "users" tables with
    | Some _ =>
        (Raise (Sqlite3Error "OperationalError" "table users already exists"), c)
    | None => (Return (Cur None []), update (tables ++ [Table "users" users_cols []]))
    end
  else if String.eqb sql "INSERT INTO users VALUES (1, 'Alice')" then
    match find_table "users" tables with
    | Some _ =>
        (Return (Cur None []),
         update (map (fun t =>
                        if String.eqb (t_name t) "users"
                        then Table (t_name t) (t_cols t)
                               (t_rows t ++ [[SqlInt 1; SqlText "Alice"]])
                        else t) tables))
    | None => (Raise (no_such_table "users"), c)
    end
  else if String.eqb sql "SELECT 1; SELECT 2" then
    (* Python 3.10 and 3.11 raise sqlite3.Warning here, which is not a
       sqlite3.Error *)
    (Raise (OtherException "Warning" "You can only execute one statement at a time."), c)
  else (Raise (syntax_error (first_word sql)), c)
  end end.

Definition closed_error : exn :=
  Sqlite3Error "ProgrammingError" "Cannot operate on a closed database.".

Definition engine : Sqlite3 := {|
  connection := conn;
  cursor := cur;
  conn_cursor c := if c_closed c then (Raise closed_error, c) else (Return tt, c);
  cursor_execute := execute;
  cursor_description := cur_description;
  cursor_fetchall k c := (Return (cur_rows k), c);
  conn_commit c := (Return tt, Conn (c_tables c) (c_tables c) (c_closed c));
|}.

(** The [users] table, just created. *)
Definition new_users_db : conn :=
  let ts := [Table "users" users_cols []] in
  Conn ts ts false.

Definition users_db : conn :=
  let ts := [Table "users" users_cols [[SqlInt 1; SqlText "Alice"]; [SqlInt 2; SqlText "Bob"]]] in
  Conn ts ts false.

End RefDb.

(** ** A reference file system

    Directories and text files by absolute path.  [makedirs] creates the
    missing ancestors, [open] for writing needs the parent directory and
    truncates. *)

Module RefFs.

Inductive node : Type :=
| Dir
| File (content : string).

Record fs : Type := Fs {
  fs_cwd : string;
  fs_nodes : gmap string node;
}.

(** [os.path.dirname] of a normalized absolute path. *)
Fixpoint drop_last_comp (comps : list string) : list string :=
  match comps with
  | [] | [_] => []
  | c :: cs => c :: drop_last_comp cs
  end.

Definition dirname (p : string) : string :=
  match drop_last_comp (split_slash "" p) with
  | [] => ""
  | [""] => "/"
  | cs => join "/" cs
  end.

(** The ancestors of a path, the root first, the path itself last. *)
Fixpoint ancestors_from (pre : string) (comps : list string) : list string :=
  match comps with
  | [] => []
  | c :: cs => let p := pre +:+ "/" +:+ c in p :: ancestors_from p cs
  end.

Definition ancestors (p : string) : list string :=
  ancestors_from "" (filter (fun c => c <> "") (split_slash "" p)).

Definition os_error (cls msg path : string) : exn :=
  OtherException cls (msg +:+ ": " +:+ repr_str path).

Fixpoint mkdir_all (ps : list string) (m : gmap string node) : outcome unit * gmap string node :=
  match ps with
  | [] => (Return tt, m)
  | p :: ps' =>
      match m !! p with
      | Some (File _) =>
          (Raise (os_error (if bool_decide (ps' = []) then "FileExistsError"
                            else "NotADirectoryError")
                           (if bool_decide (ps' = []) then "[Errno 17] File exists"
                            else "[Errno 20] Not a directory") p), m)
      | Some Dir => mkdir_all ps' m
      | None => mkdir_all ps' (<[p := Dir]> m)
      end
  end.

Definition makedirs (p : string) (s : fs) : outcome unit * fs :=
  let (o, m) := mkdir_all (ancestors p) (fs_nodes s) in
  (o, Fs (fs_cwd s) m).

Definition open_for_write (p : string) (s : fs) : outcome string * fs :=
  match fs_nodes s !! p with
  | Some Dir => (Raise (os_error "IsADirectoryError" "[Errno 21] Is a directory" p), s)
  | _ =>
      match fs_nodes s !! dirname p with
      | Some Dir => (Return p, Fs (fs_cwd s) (<[p := File ""]> (fs_nodes s)))
      | _ =>
          (Raise (os_error "FileNotFoundError" "[Errno 2] No such file or directory" p), s)
      end
  end.

Definition write (p text : string) (s : fs) : outcome unit * fs :=
  match fs_nodes s !! p with
  | Some (File c) => (Return tt, Fs (fs_cwd s) (<[p := File (c +:+ text)]> (fs_nodes s)))
  | _ => (Raise (OtherException "ValueError" "I/O operation on closed file."), s)
  end.

Definition os : Os := {|
  filesystem := fs;
  file := string;
  os_getcwd s := (Return (fs_cwd s), s);
  os_makedirs := makedirs;
  open_w := open_for_write;
  file_write := write;
  file_close _ s := (Return tt, s);
|}.

(** A home directory, and nothing else. *)
Definition home : fs :=
  Fs "/home/user" (<["/home/user" := Dir]> (<["/home" := Dir]> (<["/" := Dir]> ∅))).

(** The home directory after an earlier export to [files/out.csv]. *)
Definition home_with_export : fs :=
  Fs "/home/user"
    (<["/home/user/files/out.csv" := File "old,content"]>
       (<["/home/user/files" := Dir]> (fs_nodes home))).

End RefFs.

(** The worlds the tools are run in below. *)
Definition ref_world (c : RefDb.conn) (heap : gmap loc (list string))
  : @world RefDb.engine RefFs.os :=
  @World RefDb.engine RefFs.os c heap [] RefFs.home.

(** Data and statements of the runs below. *)
Definition crlf : string := csv_lineterminator.

Definition alice_bob : pyval :=
  VList [VTuple [VInt 1; VStr "Alice"]; VTuple [VInt 2; VStr "Bob"]].

Definition insert_alice : string := "INSERT INTO users VALUES (1, 'Alice')".

Definition users_with_alice : RefDb.conn :=
  let ts := [RefDb.Table "users" RefDb.users_cols [[SqlInt 1; SqlText "Alice"]]] in
  RefDb.Conn ts ts false.

(** ** Sessions and direct execution *)

Section Sessions.
Context {DB : Sqlite3} {OS : Os}.

(** A session: the calls [execute_sql(conn, q, query_history)] for the
    queries in turn, all with the same history reference; a caller that
    catches what a call raises goes on with the next one. *)
Fixpoint run_calls (queries : list string) (query_history : option loc)
    (w : world) : list (outcome string) * world :=
  match queries with
  | [] => ([], w)
  | q :: queries' =>
      let (o, w1) := execute_sql q query_history w in
      let (os, w2) := run_calls queries' query_history w1 in
      (o :: os, w2)
  end.

(** The world [execute_sql] runs the statement in: the call is announced
    and the query recorded. *)
Definition announced (query : string) (query_history : option loc) (w : world) : world :=
  World (w_conn w)
    (match query_history with
     | Some l => alter (fun h => h ++ [query]) l (w_heap w)
     | None => w_heap w
     end)
    (w_stdout w ++
       ["   [BEGIN Tool Action] Executing SQL: " +:+ query +:+ " [END Tool Action]"])
    (w_fs w).

(** The world with another connection state. *)
Definition with_conn (w : world) (c : connection) : world :=
  World c (w_heap w) (w_stdout w) (w_fs w).

(** The world with one more line printed. *)
Definition with_line (w : world) (line : string) : world :=
  World (w_conn w) (w_heap w) (w_stdout w ++ [line]) (w_fs w).

(** Running a statement directly against the connection raises [e]: one of
    [conn.cursor()], [cursor.execute(query)], then [cursor.fetchall()] for
    a statement with column descriptors and [conn.commit()] for one
    without, is the first call to raise, and raises [e]. *)
Inductive engine_raises (query : string) (c : connection) : exn -> connection -> Prop :=
| raises_in_cursor e c' :
    conn_cursor c = (Raise e, c') ->
    engine_raises query c e c'
| raises_in_execute e c1 c' :
    conn_cursor c = (Return tt, c1) ->
    cursor_execute query c1 = (Raise e, c') ->
    engine_raises query c e c'
| raises_in_fetchall e c1 k c2 c' :
    conn_cursor c = (Return tt, c1) ->
    cursor_execute query c1 = (Return k, c2) ->
    truthy_description (cursor_description k) = true ->
    cursor_fetchall k c2 = (Raise e, c') ->
    engine_raises query c e c'
| raises_in_commit e c1 k c2 c' :
    conn_cursor c = (Return tt, c1) ->
    cursor_execute query c1 = (Return k, c2) ->
    truthy_description (cursor_description k) = false ->
    conn_commit c2 = (Raise e, c') ->
    engine_raises query c e c'.

(** A statement that yields a result set, run directly: the rows of
    [conn.cursor().execute(query).fetchall()]. *)
Inductive engine_selects (query : string) (c : connection) : list row -> connection -> Prop :=
| selects_rows c1 k c2 rows c' :
    conn_cursor c = (Return tt, c1) ->
    cursor_execute query c1 = (Return k, c2) ->
    truthy_description (cursor_description k) = true ->
    cursor_fetchall k c2 = (Return rows, c') ->
    engine_selects query c rows c'.

(** A statement that yields no result set, run directly and committed. *)
Inductive engine_commits (query : string) (c : connection) : connection -> connection -> Prop :=
| commits_statement c1 k c2 c' :
    conn_cursor c = (Return tt, c1) ->
    cursor_execute query c1 = (Return k, c2) ->
    truthy_description (cursor_description k) = false ->
    conn_commit c2 = (Return tt, c') ->
    engine_commits query c c2 c'.

(** The statement [get_schema] sends for a table name. *)
Definition schema_sql (table_name : option string) : string :=
  match table_name with
  | Some (String c s) => table_info_sql (String c s)
  | _ => list_tables_sql
  end.

(** What [get_schema] makes of the fetched catalog rows. *)
Definition schema_items (table_name : option string) (rows : list row)
  : outcome (list pyval) :=
  match table_name with
  | Some (String _ _) => comprehension column_pair rows
  | _ => comprehension (fun table => py_index table 0) rows
  end.

(** [conn.cursor().execute(sql).fetchall()] yields [rows]. *)
Inductive engine_fetches (sql : string) (c : connection) : list row -> connection -> Prop :=
| fetches_rows c1 k c2 rows c' :
    conn_cursor c = (Return tt, c1) ->
    cursor_execute sql c1 = (Return k, c2) ->
    cursor_fetchall k c2 = (Return rows, c') ->
    engine_fetches sql c rows c'.

(** [conn.cursor().execute(sql).fetchall()] raises [e]. *)
Inductive fetch_raises (sql : string) (c : connection) : exn -> connection -> Prop :=
| fetch_raises_in_cursor e c' :
    conn_cursor c = (Raise e, c') ->
    fetch_raises sql c e c'
| fetch_raises_in_execute e c1 c' :
    conn_cursor c = (Return tt, c1) ->
    cursor_execute sql c1 = (Raise e, c') ->
    fetch_raises sql c e c'
| fetch_raises_in_fetchall e c1 k c2 c' :
    conn_cursor c = (Return tt, c1) ->
    cursor_execute sql c1 = (Return k, c2) ->
    cursor_fetchall k c2 = (Raise e, c') ->
    fetch_raises sql c e c'.

(** The world after [get_schema] announced itself and the engine moved to [c]. *)
Definition schema_world (table_name : option string) (w : world) (c : connection) : world :=
  World c (w_heap w)
    (w_stdout w ++
       ["   [Tool Action] Getting schema for: " +:+ opt_str_or table_name "all tables"])
    (w_fs w).

(** The writes of [writer.writerows]: the lines, in order, until one fails. *)
Fixpoint write_lines (f : file) (lines : list string) (fs : filesystem)
  : outcome unit * filesystem :=
  match lines with
  | [] => (Return tt, fs)
  | line :: lines' =>
      match file_write f line fs with
      | (Return _, fs') => write_lines f lines' fs'
      | (Raise e, fs') => (Raise e, fs')
      end
  end.

(** The world with another file system. *)
Definition with_fs (w : world) (fs : filesystem) : world :=
  World (w_conn w) (w_heap w) (w_stdout w) fs.

(** The path the export writes to, from the working directory [cwd]. *)
Definition csv_path (cwd filename : string) : string :=
  path_join (path_join cwd "files") (ensure_csv filename).

(** The lines the export writes for the elements of [data]. *)
Definition csv_lines (data : pyval) : list string :=
  map csv_line (map normalize_row (list_items data)).

(** The world after [save_data_to_csv] announced itself. *)
Definition saving (filename : string) (w : world) : world :=
  with_line w ("   [Tool Action] Saving data to " +:+ filename +:+ "...").

(** The export of a list fails with [e]: one of [os.getcwd()],
    [os.makedirs], [open], a [write] of a line, the closing of the file, or
    the [os.getcwd()] of [os.path.abspath] for a relative path, raises; the
    file is closed also when a write raised, and what the closing raises
    then comes first. *)
Inductive export_raises (data : pyval) (filename : string) (fs : filesystem)
  : exn -> filesystem -> Prop :=
| export_raises_getcwd e fs' :
    os_getcwd fs = (Raise e, fs') ->
    export_raises data filename fs e fs'
| export_raises_makedirs e cwd fs1 fs' :
    os_getcwd fs = (Return cwd, fs1) ->
    os_makedirs (path_join cwd "files") fs1 = (Raise e, fs') ->
    export_raises data filename fs e fs'
| export_raises_open e cwd fs1 fs2 fs' :
    os_getcwd fs = (Return cwd, fs1) ->
    os_makedirs (path_join cwd "files") fs1 = (Return tt, fs2) ->
    open_w (csv_path cwd filename) fs2 = (Raise e, fs') ->
    export_raises data filename fs e fs'
| export_raises_write e cwd fs1 fs2 f fs3 fs4 fs' :
    os_getcwd fs = (Return cwd, fs1) ->
    os_makedirs (path_join cwd "files") fs1 = (Return tt, fs2) ->
    open_w (csv_path cwd filename) fs2 = (Return f, fs3) ->
    write_lines f (csv_lines data) fs3 = (Raise e, fs4) ->
    file_close f fs4 = (Return tt, fs') ->
    export_raises data filename fs e fs'
| export_raises_write_close e0 e cwd fs1 fs2 f fs3 fs4 fs' :
    os_getcwd fs = (Return cwd, fs1) ->
    os_makedirs (path_join cwd "files") fs1 = (Return tt, fs2) ->
    open_w (csv_path cwd filename) fs2 = (Return f, fs3) ->
    write_lines f (csv_lines data) fs3 = (Raise e0, fs4) ->
    file_close f fs4 = (Raise e, fs') ->
    export_raises data filename fs e fs'
| export_raises_close e cwd fs1 fs2 f fs3 fs4 fs' :
    os_getcwd fs = (Return cwd, fs1) ->
    os_makedirs (path_join cwd "files") fs1 = (Return tt, fs2) ->
    open_w (csv_path cwd filename) fs2 = (Return f, fs3) ->
    write_lines f (csv_lines data) fs3 = (Return tt, fs4) ->
    file_close f fs4 = (Raise e, fs') ->
    export_raises data filename fs e fs'
| export_raises_abspath e cwd fs1 fs2 f fs3 fs4 fs5 fs' :
    os_getcwd fs = (Return cwd, fs1) ->
    os_makedirs (path_join cwd "files") fs1 = (Return tt, fs2) ->
    open_w (csv_path cwd filename) fs2 = (Return f, fs3) ->
    write_lines f (csv_lines data) fs3 = (Return tt, fs4) ->
    file_close f fs4 = (Return tt, fs5) ->
    isabs (csv_path cwd filename) = false ->
    os_getcwd fs5 = (Raise e, fs') ->
    export_raises data filename fs e fs'.

(** The export of a list goes through: every call succeeds, and the
    working directory is an absolute path. *)
Inductive export_succeeds (data : pyval) (filename : string) (fs : filesystem)
  : string -> filesystem -> Prop :=
| export_written cwd fs1 fs2 f fs3 fs4 fs' :
    os_getcwd fs = (Return cwd, fs1) ->
    isabs cwd = true ->
    os_makedirs (path_join cwd "files") fs1 = (Return tt, fs2) ->
    open_w (csv_path cwd filename) fs2 = (Return f, fs3) ->
    write_lines f (csv_lines data) fs3 = (Return tt, fs4) ->
    file_close f fs4 = (Return tt, fs') ->
    export_succeeds data filename fs cwd fs'.

End Sessions.

(** The file name has the extension already, in whatever case. *)
Definition csv_extension_present (filename : string) : Prop :=
  exists stem c s v,
    filename = stem +:+ String "." (String c (String s (str1 v)))
    /\ (c = "c"%char \/ c = "C"%char)
    /\ (s = "s"%char \/ s = "S"%char)
    /\ (v = "v"%char \/ v = "V"%char).

(** ** Reading a rendering back

    A reader for what [str] makes of a list of row tuples: the inverse the
    reasoning loop needs to get the rows back from the returned string.  It
    follows the grammar of the rendering: a bracketed list of parenthesised
    tuples of [None], integers, and quoted text or bytes with Python's
    escapes. *)

Definition is_int_char (c : ascii) : bool :=
  ((48 <=? code c) && (code c <=? 57) || (code c =? 45))%N.



(** The longest prefix of sign and digit characters, and the rest. *)
Fixpoint span_int (s : string) : string * string :=
  match s with
  | EmptyString => (EmptyString, EmptyString)
  | String c s' =>
      if is_int_char c then
        let (a, b) := span_int s' in (String c a, b)
      else (EmptyString, s)
  end.

Definition parse_int (s : string) : option (Z * string) :=
  let (tok, rest) := span_int s in
  match NilZero.int_of_string tok with
  | Some d => Some (Z.of_int d, rest)
  | None => None
  end.

Definition hex_val (c : ascii) : option N :=
  let n := code c in
  if ((48 <=? n) && (n <=? 57))%N then Some (n - 48)%N
  else if ((97 <=? n) && (n <=? 102))%N then Some (n - 87)%N
  else None.

(** The character an escape letter stands for. *)
Definition unescape (c : ascii) : option ascii :=
  if Ascii.eqb c "t" then Some char_tab
  else if Ascii.eqb c "n" then Some char_lf
  else if Ascii.eqb c "r" then Some char_cr
  else if Ascii.eqb c backslash then Some backslash
  else if Ascii.eqb c squote then Some squote
  else if Ascii.eqb c dquote then Some dquote
  else None.

Definition cons_char (c : ascii) (r : option (string * string)) : option (string * string) :=
  match r with
  | Some (s, rest) => Some (String c s, rest)
  | None => None
  end.

(** The characters of a literal up to its closing quote [q]. *)
Fixpoint parse_chars (q : ascii) (s : string) : option (string * string) :=
  match s with
  | EmptyString => None
  | String c s1 =>
      if Ascii.eqb c q then Some (EmptyString, s1)
      else if Ascii.eqb c backslash then
        match s1 with
        | EmptyString => None
        | String d s2 =>
            if Ascii.eqb d "x" then
              match s2 with
              | String h1 (String h2 s3) =>
                  match hex_val h1, hex_val h2 with
                  | Some a, Some b => cons_char (ascii_of_N (16 * a + b)) (parse_chars q s3)
                  | _, _ => None
                  end
              | _ => None
              end
            else
              match unescape d with
              | Some ch => cons_char ch (parse_chars q s2)
              | None => None
              end
        end
      else cons_char c (parse_chars q s1)
  end.

(** A quoted literal: the opening quote decides the closing one. *)
Definition parse_quoted (s : string) : option (string * string) :=
  match s with
  | String q s1 =>
      if Ascii.eqb q squote || Ascii.eqb q dquote then parse_chars q s1 else None
  | EmptyString => None
  end.

Definition parse_scalar (s : string) : option (sqlval * string) :=
  match s with
  | String "N" (String "o" (String "n" (String "e" rest))) => Some (SqlNull, rest)
  | String "b" s1 =>
      match parse_quoted s1 with
      | Some (b, rest) => Some (SqlBlob b, rest)
      | None => None
      end
  | String c _ =>
      if Ascii.eqb c squote || Ascii.eqb c dquote then
        match parse_quoted s with
        | Some (t, rest) => Some (SqlText t, rest)
        | None => None
        end
      else
        match parse_int s with
        | Some (z, rest) => Some (SqlInt z, rest)
        | None => None
        end
  | EmptyString => None
  end.

(** One or more elements separated by a comma and a space, up to the
    closing bracket [close]. *)
Fixpoint parse_elems {A} (elem : string -> option (A * string)) (close : ascii)
    (fuel : nat) (s : string) : option (list A * string) :=
  match fuel with
  | O => None
  | S fuel' =>
      match elem s with
      | None => None
      | Some (x, rest) =>
          match rest with
          | String c rest1 =>
              if Ascii.eqb c close then Some ([x], rest1)
              else if Ascii.eqb c comma then
                match rest1 with
                | String " " rest2 =>
                    match parse_elems elem close fuel' rest2 with
                    | Some (xs, rest3) => Some (x :: xs, rest3)
                    | None => None
                    end
                | _ => None
                end
              else None
          | EmptyString => None
          end
      end
  end.

(** A tuple: [()], [(x,)] or [(x, y, ...)]. *)
Definition parse_tuple (s : string) : option (row * string) :=
  match s with
  | String "(" s1 =>
      match parse_scalar s1 with
      | Some (x, String "," (String ")" rest)) => Some ([x], rest)
      | Some (x, String "," (String " " rest)) =>
          match parse_elems parse_scalar ")" (String.length rest) rest with
          | Some (xs, rest') => Some (x :: xs, rest')
          | None => None
          end
      | Some _ => None
      | None =>
          match s1 with
          | String ")" rest => Some ([], rest)
          | _ => None
          end
      end
  | _ => None
  end.

(** A list of tuples: [[]] or [[t, ...]]. *)
Definition parse_list (s : string) : option (list row * string) :=
  match s with
  | String "[" s1 =>
      match parse_elems parse_tuple "]" (String.length s1) s1 with
      | Some r => Some r
      | None =>
          match s1 with
          | String "]" rest => Some ([], rest)
          | _ => None
          end
      end
  | _ => None
  end.

(** The rows a whole string renders, if it is the rendering of rows. *)
Definition parse_rows (s : string) : option (list row) :=
  match parse_list s with
  | Some (rows, EmptyString) => Some rows
  | _ => None
  end.

(** ** The agent's tools

    [create_agent] binds the connection and the history list into the three
    tools it hands to the reasoning loop: [execute_sql] gets both,
    [get_schema] the connection only, [save_data_to_csv] neither.  The loop
    calls them in an order of its choosing. *)

Inductive tool_call : Type :=
| CallExecuteSql (query : string)
| CallGetSchema (table_name : option string)
| CallSaveCsv (data : pyval) (filename : string).

Section Agent.
Context {DB : Sqlite3} {OS : Os}.

(** [lambda query: execute_sql(conn, query, query_history)] *)
Definition execute_sql_tool (query_history : option loc) (query : string) : M string :=
  execute_sql query query_history.

(** [lambda table_name: get_schema(conn, table_name)] *)
Definition get_schema_tool (table_name : option string) : M string :=
  get_schema table_name.

(** [func=save_data_to_csv] *)
Definition save_csv_tool (data : pyval) (filename : string) : M string :=
  save_data_to_csv data filename.

Definition call_tool (query_history : option loc) (call : tool_call) : M string :=
  match call with
  | CallExecuteSql query => execute_sql_tool query_history query
  | CallGetSchema table_name => get_schema_tool table_name
  | CallSaveCsv data filename => save_csv_tool data filename
  end.

(** The tool calls of a run of the agent, one after the other; what a
    tool raises goes to the loop, which carries on. *)
Fixpoint run_tools (query_history : option loc) (calls : list tool_call)
    (w : world) : list (outcome string) * world :=
  match calls with
  | [] => ([], w)
  | call :: calls' =>
      let (o, w1) := call_tool query_history call w in
      let (os, w2) := run_tools query_history calls' w1 in
      (o :: os, w2)
  end.

End Agent.

(** The statements a list of tool calls passes to [execute_sql]. *)
Fixpoint executed_queries (calls : list tool_call) : list string :=
  match calls with
  | [] => []
  | CallExecuteSql query :: calls' => query :: executed_queries calls'
  | _ :: calls' => executed_queries calls'
  end.

(** ** Reading a CSV text back

    A reader for the text the default writer produces: records end with
    CR LF, fields are separated by commas, a field in double quotes runs to
    the closing quote and has its quotes doubled.  The result of reading
    from inside a record has that record first, and the rest of the field
    being read as its first field. *)

Inductive csv_state : Type :=
| CsvStartRecord
| CsvStartField
| CsvInField
| CsvInQuoted
| CsvQuoteSeen.

Definition push_char (c : ascii) (r : option (list (list string)))
  : option (list (list string)) :=
  match r with
  | Some ((f :: fs) :: recs) => Some ((String c f :: fs) :: recs)
  | _ => None
  end.

Definition begin_field (r : option (list (list string)))
  : option (list (list string)) :=
  match r with
  | Some (fs :: recs) => Some ((EmptyString :: fs) :: recs)
  | _ => None
  end.

Definition begin_record (fields : list string) (r : option (list (list string)))
  : option (list (list string)) :=
  match r with
  | Some recs => Some (fields :: recs)
  | None => None
  end.

Fixpoint csv_read (st : csv_state) (s : string) : option (list (list string)) :=
  match s with
  | EmptyString =>
      match st with
      | CsvStartRecord => Some []
      | _ => None
      end
  | String c s' =>
      match st with
      | CsvInQuoted =>
          if Ascii.eqb c dquote then csv_read CsvQuoteSeen s'
          else push_char c (csv_read CsvInQuoted s')
      | _ =>
          if Ascii.eqb c comma then begin_field (csv_read CsvStartField s')
          else if Ascii.eqb c char_cr then
            match s' with
            | String d s'' =>
                if Ascii.eqb d char_lf then
                  begin_record
                    (match st with
                     | CsvStartRecord => []
                     | _ => [EmptyString]
                     end)
                    (csv_read CsvStartRecord s'')
                else None
            | EmptyString => None
            end
          else if Ascii.eqb c char_lf then None
          else if Ascii.eqb c dquote then
            match st with
            | CsvStartRecord | CsvStartField => csv_read CsvInQuoted s'
            | CsvQuoteSeen => push_char dquote (csv_read CsvInQuoted s')
            | _ => None
            end
          else
            match st with
            | CsvQuoteSeen => None
            | _ => push_char c (csv_read CsvInField s')
            end
      end
  end.

(** The records of a whole text. *)
Definition read_csv (text : string) : option (list (list string)) :=
  csv_read CsvStartRecord text.

(** The text of a file the lines were written to, one after the other. *)
Fixpoint concat_lines (lines : list string) : string :=
  match lines with
  | [] => EmptyString
  | line :: lines' => line +:+ concat_lines lines'
  end.

(** The characters of [t] put in front of the field being read. *)
Fixpoint push_str (t : string) (r : option (list (list string)))
  : option (list (list string)) :=
  match t with
  | EmptyString => r
  | String c t' => push_char c (push_str t' r)
  end.

(** The fields of the rows as the writer writes them. *)
Definition csv_texts (data : pyval) : list (list string) :=
  map (fun r => map csv_field_text (normalize_row r)) (list_items data).

(** * Properties *)

(** ** The builtins on examples *)

Example repr_rows_ex :
  py_str (py_of_rows [[SqlInt 1; SqlText "Alice"]; [SqlInt 2; SqlText "Bob"]])
  = "[(1, 'Alice'), (2, 'Bob')]".
Proof. reflexivity. Qed.

Example repr_single_ex :
  py_repr (VTuple [VStr "it's"; VNone; VInt (-7); VBytes "a"]) =
  String "(" (String dquote ("it's" +:+ String dquote ", None, -7, b'a')")).
Proof. reflexivity. Qed.

Example normpath_ex1 : normpath "/home/u/files/out.csv" = "/home/u/files/out.csv".
Proof. reflexivity. Qed.
Example normpath_ex2 : normpath "/home/u/files/../a//b/./c.csv" = "/home/u/a/b/c.csv".
Proof. reflexivity. Qed.
Example path_join_ex : path_join "/home/u/files" "/tmp/x.csv" = "/tmp/x.csv".
Proof. reflexivity. Qed.

Example csv_line_ex1 :
  csv_line [VInt 1; VStr "Alice"] = "1,Alice" +:+ csv_lineterminator.
Proof. reflexivity. Qed.
Example csv_line_ex2 :
  csv_line [VStr "a,b"; VNone; VBool true] =
  String dquote ("a,b" +:+ String dquote ",,True") +:+ csv_lineterminator.
Proof. reflexivity. Qed.

Example parse_rows_ex :
  parse_rows "[(1, 'Alice'), (2, None), (-30, b'\x00a'), ('it\'s',)]" =
  Some [[SqlInt 1; SqlText "Alice"]; [SqlInt 2; SqlNull];
        [SqlInt (-30); SqlBlob (String "000" "a")]; [SqlText "it's"]].
Proof. reflexivity. Qed.

Section ExecuteSql.
Context {DB : Sqlite3} {OS : Os}.

Ltac run_monad :=
  unfold execute_sql, announced, with_conn, with_line, bind, try_except,
    lift_db, lift_outcome, print, list_append, ret; simpl.

(* rewrite with the results of the engine calls as they come up *)
Ltac run_engine :=
  repeat match goal with
         | H : _ = (_, _) |- _ => rewrite H; simpl
         | H : _ = true |- _ => rewrite H; simpl
         | H : _ = false |- _ => rewrite H; simpl
         end.

Lemma execute_sql_raises_sqlite query h w e c' :
  engine_raises query (w_conn w) e c' ->
  is_sqlite3_Error e = true ->
  execute_sql query h w =
    (Return ("Error: " +:+ exn_str e),
     with_line (with_conn (announced query h w) c') ("   [ERROR] " +:+ exn_str e)).
Proof.
  intros Hr He. run_monad.
  destruct h; simpl;
    (inversion Hr; subst; run_engine; reflexivity).
Qed.

Lemma execute_sql_raises_other query h w e c' :
  engine_raises query (w_conn w) e c' ->
  is_sqlite3_Error e = false ->
  execute_sql query h w = (Raise e, with_conn (announced query h w) c').
Proof.
  intros Hr He. run_monad.
  destruct h; simpl;
    (inversion Hr; subst; run_engine; reflexivity).
Qed.

Lemma execute_sql_selects query h w rows c' :
  engine_selects query (w_conn w) rows c' ->
  execute_sql query h w =
    (Return (py_str (py_of_rows rows)), with_conn (announced query h w) c').
Proof.
  intros Hr. run_monad.
  destruct h; simpl;
    (inversion Hr; subst; run_engine; reflexivity).
Qed.

Lemma execute_sql_commits query h w c2 c' :
  engine_commits query (w_conn w) c2 c' ->
  execute_sql query h w =
    (Return "Query executed successfully (no data returned).",
     with_conn (announced query h w) c').
Proof.
  intros Hr. run_monad.
  destruct h; simpl;
    (inversion Hr; subst; run_engine; reflexivity).
Qed.

(** Every run of the statement is one of the three. *)
Lemma engine_total query c :
  (exists e c', engine_raises query c e c') \/
  (exists rows c', engine_selects query c rows c') \/
  (exists c2 c', engine_commits query c c2 c').
Proof.
  destruct (conn_cursor c) as [[[]|e] c1] eqn:H1.
  2: { left. exists e, c1. by apply raises_in_cursor. }
  destruct (cursor_execute query c1) as [[k|e] c2] eqn:H2.
  2: { left. exists e, c2. by eapply raises_in_execute. }
  destruct (truthy_description (cursor_description k)) eqn:H3.
  - destruct (cursor_fetchall k c2) as [[rows|e] c3] eqn:H4.
    + right. left. exists rows, c3. by eapply selects_rows.
    + left. exists e, c3. by eapply raises_in_fetchall.
  - destruct (conn_commit c2) as [[[]|e] c3] eqn:H4.
    + right. right. exists c2, c3. by eapply commits_statement.
    + left. exists e, c3. by eapply raises_in_commit.
Qed.

(** Whatever the engine does, the heap and the output after a call are
    those of the announcement, up to the error line. *)
Lemma execute_sql_heap query h w :
  w_heap (snd (execute_sql query h w)) = w_heap (announced query h w).
Proof.
  destruct (engine_total query (w_conn w))
    as [(e & c' & Hr)|[(rows & c' & Hr)|(c2 & c' & Hr)]].
  - destruct (is_sqlite3_Error e) eqn:He.
    + by rewrite (execute_sql_raises_sqlite _ _ _ _ _ Hr He).
    + by rewrite (execute_sql_raises_other _ _ _ _ _ Hr He).
  - by rewrite (execute_sql_selects _ _ _ _ _ Hr).
  - by rewrite (execute_sql_commits query h w c2 c' Hr).
Qed.

Lemma run_calls_history queries : forall (l : loc) (w : world) (old : list string),
  w_heap w !! l = Some old ->
  w_heap (snd (run_calls queries (Some l) w)) !! l = Some (old ++ queries).
Proof.
  induction queries as [|q queries IH]; intros l w old Hold; simpl.
  - by rewrite app_nil_r.
  - pose proof (execute_sql_heap q (Some l) w) as Hh.
    destruct (execute_sql q (Some l) w) as [o w1]. simpl in Hh.
    specialize (IH l w1 (old ++ [q])).
    destruct (run_calls queries (Some l) w1) as [os w2]. simpl in *.
    rewrite <- app_assoc in IH. apply IH.
    rewrite Hh, lookup_alter_eq, Hold. reflexivity.
Qed.

Lemma run_calls_length queries h : forall w : world,
  length (fst (run_calls queries h w)) = length queries.
Proof.
  induction queries as [|q queries IH]; intros w; simpl; [reflexivity|].
  destruct (execute_sql q h w) as [o w1]. specialize (IH w1).
  destruct (run_calls queries h w1) as [os w2]. simpl in *. by rewrite IH.
Qed.


(** C3: after the calls of a session that shares one history list, the
    list holds what it held before followed by every query of the session
    in call order, whatever each call returned or raised; started empty it
    has exactly one entry per call.  Each call records its query before it
    runs the statement: it is the call without a history in the world
    where the list already has the query. *)
Theorem history_records_every_call queries (l : loc) (w : world) old :
  w_heap w !! l = Some old ->
  w_heap (snd (run_calls queries (Some l) w)) !! l = Some (old ++ queries)
  /\ length (fst (run_calls queries (Some l) w)) = length queries
  /\ (old = [] ->
      exists entries, w_heap (snd (run_calls queries (Some l) w)) !! l = Some entries
                      /\ entries = queries /\ length entries = length queries)
  /\ (forall q,
        w_heap (snd (execute_sql q (Some l) w)) !! l = Some (old ++ [q])
        /\ execute_sql q (Some l) w =
           execute_sql q None
             (World (w_conn w) (alter (fun h => h ++ [q]) l (w_heap w))
                    (w_stdout w) (w_fs w))).
Proof.
  intros Hold. repeat split.
  - by apply run_calls_history.
  - apply run_calls_length.
  - intros ->. exists queries. split; [|done].
    by rewrite (run_calls_history queries l w [] Hold).
  - by rewrite execute_sql_heap; simpl; rewrite lookup_alter_eq, Hold.
Qed.

(** C5: a statement without a result set that the engine runs and commits:
    [execute_sql] returns the fixed message, and leaves the connection as
    [conn.commit()] left it just after the statement; a later SELECT through
    the tool returns the rows that running it directly against that
    connection yields. *)
Theorem execute_sql_commits_mutation query h (w : world) c2 c' :
  engine_commits query (w_conn w) c2 c' ->
  execute_sql query h w =
    (Return "Query executed successfully (no data returned).",
     with_conn (announced query h w) c')
  /\ conn_commit c2 = (Return tt, c')
  /\ (forall query2 h2 rows c'',
        engine_selects query2 c' rows c'' ->
        fst (execute_sql query2 h2 (snd (execute_sql query h w)))
        = Return (py_str (py_of_rows rows))).
Proof.
  intros Hc. split; [by apply (execute_sql_commits query h w c2 c')|]. split.
  - by inversion Hc.
  - intros query2 h2 rows c'' Hs.
    rewrite (execute_sql_commits query h w c2 c' Hc). simpl.
    by rewrite (execute_sql_selects query2 h2
                  (with_conn (announced query h w) c') rows c'' Hs).
Qed.

End ExecuteSql.

(** ** Rendering and reading back *)

Section Rendering.

Lemma append_assoc a b c : (a +:+ b) +:+ c = a +:+ (b +:+ c).
Proof. induction a as [|x a IH]; simpl; [reflexivity|]. by rewrite IH. Qed.

Lemma append_nil_r a : a +:+ "" = a.
Proof. induction a as [|x a IH]; simpl; [reflexivity|]. by rewrite IH. Qed.

(** *** Integers *)







(** *** Quoted text and bytes *)








(** *** Scalars *)





(** *** Sequences *)

Lemma string_length_app a b :
  String.length (a +:+ b) = (String.length a + String.length b)%nat.
Proof. induction a as [|c a IH]; simpl; [reflexivity|]. by rewrite IH. Qed.





Lemma parse_scalar_close tail : parse_scalar (String ")" tail) = None.
Proof. reflexivity. Qed.






End Rendering.

Section Rows.
Context {DB : Sqlite3} {OS : Os}.


End Rows.

(** ** Schema inspection *)

Section GetSchema.
Context {DB : Sqlite3} {OS : Os}.

Ltac run_schema :=
  unfold get_schema, schema_world, bind, lift_db, lift_outcome, print, ret; simpl.

Ltac run_engine :=
  repeat match goal with
         | H : _ = (_, _) |- _ => rewrite H; simpl
         | H : _ = Return _ |- _ => rewrite H; simpl
         | H : _ = Raise _ |- _ => rewrite H; simpl
         end.

Lemma get_schema_fetches table_name (w : world) rows c' :
  engine_fetches (schema_sql table_name) (w_conn w) rows c' ->
  get_schema table_name w =
    (match schema_items table_name rows with
     | Return items => Return (py_str (VList items))
     | Raise e => Raise e
     end, schema_world table_name w c').
Proof.
  intros Hf. inversion Hf; subst.
  destruct table_name as [[|c s]|]; run_schema; simpl in *; run_engine;
    match goal with |- context [comprehension ?f ?l] =>
      destruct (comprehension f l) end; reflexivity.
Qed.

Lemma get_schema_raises table_name (w : world) e c' :
  fetch_raises (schema_sql table_name) (w_conn w) e c' ->
  get_schema table_name w = (Raise e, schema_world table_name w c').
Proof.
  intros Hf.
  destruct table_name as [[|c s]|]; run_schema; simpl in *;
    (inversion Hf; subst; run_engine; reflexivity).
Qed.




End GetSchema.

Lemma fetch_total `{DB : Sqlite3} sql c :
  (exists rows c', engine_fetches sql c rows c') \/
  (exists e c', fetch_raises sql c e c').
Proof.
  destruct (conn_cursor c) as [[[]|e] c1] eqn:H1.
  2: { right. exists e, c1. by apply fetch_raises_in_cursor. }
  destruct (cursor_execute sql c1) as [[k|e] c2] eqn:H2.
  2: { right. exists e, c2. by eapply fetch_raises_in_execute. }
  destruct (cursor_fetchall k c2) as [[rows|e] c3] eqn:H3.
  - left. exists rows, c3. by eapply fetches_rows.
  - right. exists e, c3. by eapply fetch_raises_in_fetchall.
Qed.

(** C10: with the empty string as table name [get_schema] does what it
    does without a table name: it sends the query for all tables and
    returns the rendering of the list of their names. *)
Theorem get_schema_empty_name_lists_tables `{DB : Sqlite3} `{OS : Os} (w : world) :
  get_schema (Some "") w = get_schema None w
  /\ schema_sql (Some "") = list_tables_sql
  /\ (forall tables c' names,
        engine_fetches list_tables_sql (w_conn w) tables c' ->
        comprehension (fun table => py_index table 0) tables = Return names ->
        fst (get_schema (Some "") w) = Return (py_str (VList names))).
Proof.
  split; [reflexivity|]. split; [reflexivity|].
  intros tables c' names Hf Hn.
  rewrite (get_schema_fetches (Some "") w tables c' Hf). simpl. by rewrite Hn.
Qed.


(** C2, as the code has it: [save_data_to_csv] returns a string on every
    invocation; [execute_sql] returns a string unless the engine raises an
    exception that is not a [sqlite3.Error], which it lets through;
    [get_schema] has no handler: it returns a string when its catalog query
    and the reading of the rows succeed, and lets through whatever they
    raise. *)
Theorem tool_boundary `{DB : Sqlite3} `{OS : Os} (w : world) :
  (forall data filename, exists s, fst (save_data_to_csv data filename w) = Return s)
  /\ (forall query h,
        (exists s, fst (execute_sql query h w) = Return s)
        \/ (exists e c',
              engine_raises query (w_conn w) e c' /\ is_sqlite3_Error e = false
              /\ fst (execute_sql query h w) = Raise e))
  /\ (forall table_name,
        (exists rows c' items,
            engine_fetches (schema_sql table_name) (w_conn w) rows c'
            /\ schema_items table_name rows = Return items
            /\ fst (get_schema table_name w) = Return (py_str (VList items)))
        \/ (exists e,
              fst (get_schema table_name w) = Raise e
              /\ ((exists c', fetch_raises (schema_sql table_name) (w_conn w) e c')
                  \/ (exists rows c',
                        engine_fetches (schema_sql table_name) (w_conn w) rows c'
                        /\ schema_items table_name rows = Raise e)))).
Proof.
  split; [|split].
  - intros data filename.
    unfold save_data_to_csv, bind, print, try_except, ret. simpl.
    destruct (save_body data filename _) as [[s|e] w']; simpl; eauto.
  - intros query h.
    destruct (engine_total query (w_conn w))
      as [(e & c' & Hr)|[(rows & c' & Hr)|(c2 & c' & Hr)]].
    + destruct (is_sqlite3_Error e) eqn:He.
      * left. rewrite (execute_sql_raises_sqlite _ _ _ _ _ Hr He). eauto.
      * right. exists e, c'. rewrite (execute_sql_raises_other _ _ _ _ _ Hr He). eauto.
    + left. rewrite (execute_sql_selects _ _ _ _ _ Hr). eauto.
    + left. rewrite (execute_sql_commits query h w c2 c' Hr). eauto.
  - intros table_name.
    destruct (fetch_total (schema_sql table_name) (w_conn w))
      as [(rows & c' & Hf)|(e & c' & Hf)].
    + rewrite (get_schema_fetches table_name w rows c' Hf).
      destruct (schema_items table_name rows) as [items|e] eqn:Hi.
      * left. exists rows, c', items. eauto.
      * right. exists e. split; [reflexivity|]. right. eauto.
    + right. exists e. rewrite (get_schema_raises table_name w e c' Hf). eauto.
Qed.

(** ** CSV export *)

Section SaveCsv.
Context {DB : Sqlite3} {OS : Os}.

Ltac run_save :=
  unfold save_data_to_csv, save_body, saving, with_open, abspath,
    with_line, with_fs, bind, try_except, raise, lift_fs, print, ret;
  simpl.

Ltac run_os :=
  repeat match goal with
         | H : _ = (_, _) |- _ => rewrite H; simpl
         | H : _ = true |- _ => rewrite H; simpl
         | H : _ = false |- _ => rewrite H; simpl
         end.

Lemma writerows_write_lines f rows (w : world) :
  writerows f rows w =
    (fst (write_lines f (map csv_line rows) (w_fs w)),
     with_fs w (snd (write_lines f (map csv_line rows) (w_fs w)))).
Proof.
  revert w. induction rows as [|r rows IH]; intros w; simpl.
  - by destruct w.
  - unfold bind, lift_fs. destruct (file_write f (csv_line r) (w_fs w)) as [[[]|e] fs'].
    + rewrite IH. reflexivity.
    + reflexivity.
Qed.

Lemma save_non_list data filename (w : world) :
  isinstance_list data = false ->
  save_data_to_csv data filename w =
    (Return "Error: Data must be a list of tuples or lists.", saving filename w).
Proof. intros H. run_save. by rewrite H. Qed.

Lemma save_raises data filename (w : world) e fs' :
  isinstance_list data = true ->
  export_raises data filename (w_fs w) e fs' ->
  save_data_to_csv data filename w =
    (Return ("Error saving CSV: " +:+ exn_str e), with_fs (saving filename w) fs').
Proof.
  intros Hl Hr. run_save. rewrite Hl. simpl.
  inversion Hr; subst; unfold csv_path, csv_lines in *;
    run_os; rewrite ?writerows_write_lines; simpl; run_os; reflexivity.
Qed.

(** *** Paths *)

Lemma startswith_app a b p : startswith a p = true -> startswith (a +:+ b) p = true.
Proof.
  revert a. induction p as [|c p IH]; intros a H; [reflexivity|].
  destruct a as [|d a]; [discriminate H|]. simpl in *.
  apply andb_prop in H as [-> H]. by rewrite IH.
Qed.

Lemma isabs_path_join a b : isabs a = true -> isabs (path_join a b) = true.
Proof.
  intros Ha. unfold path_join, isabs in *.
  destruct (startswith b "/") eqn:Hb; [exact Hb|].
  destruct (_ || _); by apply startswith_app.
Qed.


Lemma rev_string_app a b : rev_string (a +:+ b) = rev_string b +:+ rev_string a.
Proof.
  induction a as [|c a IH]; simpl.
  - by rewrite append_nil_r.
  - by rewrite IH, append_assoc.
Qed.

Lemma rev_string_involutive a : rev_string (rev_string a) = a.
Proof.
  induction a as [|c a IH]; simpl; [reflexivity|].
  by rewrite rev_string_app, IH.
Qed.

Lemma lower_app a b : lower (a +:+ b) = lower a +:+ lower b.
Proof. induction a as [|c a IH]; simpl; [reflexivity|]. by rewrite IH. Qed.

Lemma rev_string_lower a : rev_string (lower a) = lower (rev_string a).
Proof.
  induction a as [|c a IH]; simpl; [reflexivity|].
  by rewrite lower_app, IH.
Qed.

(** The directory of the exports neither is empty nor ends with a slash. *)
Lemma files_dir_shape cwd :
  String.eqb (path_join cwd "files") "" = false
  /\ endswith (path_join cwd "files") "/" = false.
Proof.
  unfold path_join. change (startswith "files" "/") with false. cbv beta iota.
  assert (forall x, String.eqb (x +:+ "files") "" = false
                    /\ endswith (x +:+ "files") "/" = false) as Hx.
  { intros x. split.
    - by destruct x.
    - unfold endswith. by rewrite rev_string_app. }
  destruct (_ || _).
  - apply Hx.
  - rewrite <- append_assoc. apply Hx.
Qed.

Lemma ensure_csv_relative filename :
  startswith (ensure_csv filename) "/" = startswith filename "/".
Proof.
  unfold ensure_csv. destruct (negb _); [|reflexivity].
  by destruct filename.
Qed.

Lemma csv_path_relative cwd filename :
  startswith filename "/" = false ->
  csv_path cwd filename = path_join cwd "files" +:+ "/" +:+ ensure_csv filename.
Proof.
  intros Hf. unfold csv_path.
  destruct (files_dir_shape cwd) as [H1 H2].
  unfold path_join at 1. by rewrite ensure_csv_relative, Hf, H1, H2.
Qed.

(** *** The extension *)

Lemma lower_char_letter (l u x : ascii) :
  (l = "c" /\ u = "C" \/ l = "s" /\ u = "S" \/ l = "v" /\ u = "V")%char ->
  Ascii.eqb l (lower_char x) = true <-> x = l \/ x = u.
Proof.
  intros Hl. split.
  - destruct Hl as [[-> ->]|[[-> ->]|[-> ->]]];
      destruct x as [[] [] [] [] [] [] [] []]; intros H;
      first [discriminate H | by left | by right].
  - destruct Hl as [[-> ->]|[[-> ->]|[-> ->]]]; intros [-> | ->]; reflexivity.
Qed.

Lemma lower_char_dot x : Ascii.eqb "." (lower_char x) = true <-> x = "."%char.
Proof.
  split; [|by intros ->].
  destruct x as [[] [] [] [] [] [] [] []]; intros H;
    first [discriminate H | reflexivity].
Qed.

Lemma endswith_lower_csv filename :
  endswith (lower filename) ".csv" = true <-> csv_extension_present filename.
Proof.
  unfold endswith, csv_extension_present. rewrite rev_string_lower.
  change (rev_string ".csv") with "vsc.". split.
  - intros H.
    destruct (rev_string filename) as [|v [|s [|c [|d rest]]]] eqn:E;
      simpl in H; try discriminate H;
      try (repeat (apply andb_prop in H as [_ H]); discriminate H).
    apply andb_prop in H as [Hv H]. apply andb_prop in H as [Hs H].
    apply andb_prop in H as [Hc H]. apply andb_prop in H as [Hd _].
    apply lower_char_dot in Hd. subst d.
    exists (rev_string rest), c, s, v. split.
    + rewrite <- (rev_string_involutive filename), E. simpl.
      by rewrite !append_assoc.
    + split; [|split].
      * apply (lower_char_letter "c" "C"); [tauto|done].
      * apply (lower_char_letter "s" "S"); [tauto|done].
      * apply (lower_char_letter "v" "V"); [tauto|done].
  - intros (stem & c & s & v & -> & Hc & Hs & Hv).
    rewrite rev_string_app. simpl.
    by destruct Hc as [-> | ->], Hs as [-> | ->], Hv as [-> | ->].
Qed.

Lemma ensure_csv_spec filename :
  (csv_extension_present filename -> ensure_csv filename = filename)
  /\ (~ csv_extension_present filename -> ensure_csv filename = filename +:+ ".csv").
Proof.
  unfold ensure_csv. split; intros H.
  - apply endswith_lower_csv in H. by rewrite H.
  - destruct (endswith (lower filename) ".csv") eqn:E; [|reflexivity].
    by apply endswith_lower_csv in E.
Qed.

Lemma save_succeeds data filename (w : world) cwd fs' :
  isinstance_list data = true ->
  export_succeeds data filename (w_fs w) cwd fs' ->
  save_data_to_csv data filename w =
    (Return ("Data saved successfully to: " +:+ normpath (csv_path cwd filename)),
     with_fs (saving filename w) fs').
Proof.
  intros Hl Hr. run_save. rewrite Hl. simpl.
  inversion Hr as [? fs1 fs2 f fs3 fs4 ? H1 Habs H2 H3 H4 H5]; subst.
  pose proof (isabs_path_join _ (ensure_csv filename)
                (isabs_path_join cwd "files" Habs)) as Hp.
  unfold csv_path, csv_lines in *.
  rewrite H1; simpl. rewrite H2; simpl. rewrite H3; simpl.
  rewrite writerows_write_lines; simpl. rewrite H4; simpl. rewrite H5; simpl.
  rewrite Hp. reflexivity.
Qed.

End SaveCsv.

(** C7: data that is not a list is turned down at once: the tool returns
    its error string, and the file system is as it was: no call to the
    operating system is made, no file is created. *)
Theorem save_data_to_csv_rejects_non_list `{DB : Sqlite3} `{OS : Os}
    data filename (w : world) :
  isinstance_list data = false ->
  save_data_to_csv data filename w =
    (Return "Error: Data must be a list of tuples or lists.", saving filename w)
  /\ w_fs (snd (save_data_to_csv data filename w)) = w_fs w.
Proof.
  intros H. rewrite (save_non_list data filename w H). split; reflexivity.
Qed.

(** C8, as the code has it: data of the wrong shape (not a list) gets the
    string ["Error: Data must be a list of tuples or lists."]; every
    failure of a call to the operating system while a list is exported is
    caught and returned as ["Error saving CSV: "] followed by the text of
    the exception. *)
Theorem save_data_to_csv_error_strings `{DB : Sqlite3} `{OS : Os}
    data filename (w : world) :
  (isinstance_list data = false ->
   fst (save_data_to_csv data filename w)
   = Return "Error: Data must be a list of tuples or lists.")
  /\ (isinstance_list data = true ->
      forall e fs',
        export_raises data filename (w_fs w) e fs' ->
        save_data_to_csv data filename w =
          (Return ("Error saving CSV: " +:+ exn_str e), with_fs (saving filename w) fs')
        /\ startswith ("Error saving CSV: " +:+ exn_str e) "Error saving CSV: " = true).
Proof.
  split.
  - intros H. by rewrite (save_non_list data filename w H).
  - intros H e fs' Hr. split; [by apply save_raises|reflexivity].
Qed.


(** ** Runs on the reference systems *)


Lemma history_records_every_call_witness :
  w_heap (snd (run_calls ["SELECT 1"; "SELEC 1"; "SELECT 1; SELECT 2"] (Some 0%nat)
                 (ref_world RefDb.users_db {[ 0%nat := [] ]}))) !! 0%nat
  = Some ["SELECT 1"; "SELEC 1"; "SELECT 1; SELECT 2"]
  /\ map returns (fst (run_calls ["SELECT 1"; "SELEC 1"; "SELECT 1; SELECT 2"] (Some 0%nat)
                         (ref_world RefDb.users_db {[ 0%nat := [] ]})))
     = [true; true; false].
Proof.
  split.
  - exact (proj1 (history_records_every_call
                    ["SELECT 1"; "SELEC 1"; "SELECT 1; SELECT 2"] 0%nat
                    (ref_world RefDb.users_db {[ 0%nat := [] ]}) [] eq_refl)).
  - reflexivity.
Defined.


Lemma execute_sql_commits_mutation_witness :
  fst (execute_sql insert_alice None (ref_world RefDb.new_users_db ∅))
  = Return "Query executed successfully (no data returned)."
  /\ w_conn (snd (execute_sql insert_alice None (ref_world RefDb.new_users_db ∅)))
     = users_with_alice
  /\ fst (execute_sql "SELECT * FROM users" None
            (snd (execute_sql insert_alice None (ref_world RefDb.new_users_db ∅))))
     = Return "[(1, 'Alice')]".
Proof.
  assert (engine_commits (DB := RefDb.engine) insert_alice RefDb.new_users_db
            (RefDb.Conn (RefDb.c_tables users_with_alice)
               (RefDb.c_committed RefDb.new_users_db) false)
            users_with_alice) as Hc.
  { eapply commits_statement; reflexivity. }
  destruct (execute_sql_commits_mutation insert_alice None
              (ref_world RefDb.new_users_db ∅) _ _ Hc) as (H1 & _ & H3).
  split; [exact (f_equal fst H1)|]. split; [exact (f_equal (fun r => w_conn (snd r)) H1)|].
  apply (H3 "SELECT * FROM users" None [[SqlInt 1; SqlText "Alice"]] users_with_alice).
  eapply selects_rows; reflexivity.
Defined.

Lemma save_data_to_csv_rejects_non_list_witness :
  save_data_to_csv (VStr "not a list") "out" (ref_world RefDb.users_db ∅)
  = (Return "Error: Data must be a list of tuples or lists.",
     saving "out" (ref_world RefDb.users_db ∅))
  /\ w_fs (snd (save_data_to_csv (VStr "not a list") "out" (ref_world RefDb.users_db ∅)))
     = RefFs.home.
Proof.
  exact (save_data_to_csv_rejects_non_list (VStr "not a list") "out"
           (ref_world RefDb.users_db ∅) eq_refl).
Defined.



Lemma tool_boundary_counterexample :
  fst (get_schema (Some "a b") (ref_world RefDb.users_db ∅))
  = Raise (RefDb.syntax_error "b")
  /\ ~ (exists s, fst (get_schema (Some "a b") (ref_world RefDb.users_db ∅)) = Return s).
Proof.
  split; [reflexivity|]. intros [s H]. discriminate H.
Qed.


Lemma save_data_to_csv_error_strings_counterexample :
  fst (save_data_to_csv (VStr "not a list") "out" (ref_world RefDb.users_db ∅))
  = Return "Error: Data must be a list of tuples or lists."
  /\ startswith "Error: Data must be a list of tuples or lists." "Error saving CSV: "
     = false.
Proof. split; reflexivity. Qed.


Lemma save_data_to_csv_error_strings_witness :
  fst (save_data_to_csv alice_bob "2024/out" (ref_world RefDb.users_db ∅))
  = Return ("Error saving CSV: [Errno 2] No such file or directory: "
            +:+ "'/home/user/files/2024/out.csv'").
Proof.
  refine (f_equal fst
            (proj1 (proj2 (save_data_to_csv_error_strings alice_bob "2024/out"
                             (ref_world RefDb.users_db ∅)) eq_refl
                      (RefFs.os_error "FileNotFoundError"
                         "[Errno 2] No such file or directory"
                         "/home/user/files/2024/out.csv") _ _))).
  eapply export_raises_open; reflexivity.
Defined.

Lemma get_schema_empty_name_lists_tables_witness :
  fst (get_schema (Some "") (ref_world RefDb.users_db ∅)) = Return "['users']".
Proof.
  refine (proj2 (proj2 (get_schema_empty_name_lists_tables (ref_world RefDb.users_db ∅)))
            [[SqlText "users"]] RefDb.users_db [VStr "users"] _ eq_refl).
  eapply fetches_rows; reflexivity.
Defined.

Example read_csv_ex :
  read_csv (csv_line [VInt 1; VStr "a,b"; VNone] +:+ csv_line [] +:+ csv_line [VStr ""]
            +:+ csv_line [VStr (String dquote "x"); VStr ("l1" +:+ crlf +:+ "l2")])
  = Some [["1"; "a,b"; ""]; []; [""]; [String dquote "x"; "l1" +:+ crlf +:+ "l2"]].
Proof. reflexivity. Qed.

(** ** Reading the export back *)

Section CsvRoundTrip.

Lemma push_char_none c : push_char c None = None.
Proof. reflexivity. Qed.

Lemma push_str_none t : push_str t None = None.
Proof. induction t as [|c t IH]; simpl; [reflexivity|]. by rewrite IH. Qed.

Lemma push_str_begin_record t f fs r :
  push_str t (begin_record (f :: fs) r) = begin_record ((t +:+ f) :: fs) r.
Proof.
  destruct r as [recs|]; simpl; [|apply push_str_none].
  induction t as [|c t IH]; simpl; [reflexivity|]. by rewrite IH.
Qed.

Lemma begin_field_begin_record fs r :
  begin_field (begin_record fs r) = begin_record (EmptyString :: fs) r.
Proof. by destruct r. Qed.

Lemma needs_quote_cons c t :
  csv_needs_quote (String c t) = false ->
  Ascii.eqb c comma = false /\ Ascii.eqb c dquote = false
  /\ Ascii.eqb c char_cr = false /\ Ascii.eqb c char_lf = false
  /\ csv_needs_quote t = false.
Proof.
  unfold csv_needs_quote. cbn [contains].
  rewrite (Ascii.eqb_sym comma c), (Ascii.eqb_sym dquote c),
    (Ascii.eqb_sym char_cr c), (Ascii.eqb_sym char_lf c).
  destruct (Ascii.eqb c comma), (Ascii.eqb c dquote), (Ascii.eqb c char_cr),
    (Ascii.eqb c char_lf), (contains comma t), (contains dquote t),
    (contains char_cr t), (contains char_lf t);
    simpl; intros H; try discriminate H; repeat split; reflexivity.
Qed.

(** A plain character goes into the field, wherever the field is. *)
Lemma csv_read_plain_char st c s :
  st <> CsvInQuoted -> st <> CsvQuoteSeen ->
  Ascii.eqb c comma = false -> Ascii.eqb c dquote = false ->
  Ascii.eqb c char_cr = false -> Ascii.eqb c char_lf = false ->
  csv_read st (String c s) = push_char c (csv_read CsvInField s).
Proof.
  intros H1 H2 Hc Hd Hr Hl. simpl. rewrite Hc, Hd, Hr, Hl. by destruct st.
Qed.

Lemma csv_read_plain t rest :
  csv_needs_quote t = false ->
  csv_read CsvInField (t +:+ rest) = push_str t (csv_read CsvInField rest).
Proof.
  induction t as [|c t IH]; intros H; [reflexivity|].
  apply needs_quote_cons in H as (Hc & Hd & Hr & Hl & Ht).
  change (String c t +:+ rest) with (String c (t +:+ rest)).
  rewrite csv_read_plain_char by done. simpl. by rewrite IH.
Qed.

Lemma csv_read_quoted t rest :
  csv_read CsvInQuoted (escape_with csv_double_quote t +:+ String dquote rest)
  = push_str t (csv_read CsvQuoteSeen rest).
Proof.
  induction t as [|c t IH]; [reflexivity|].
  cbn [escape_with push_str]. rewrite append_assoc. unfold csv_double_quote at 1.
  destruct (Ascii.eqb c dquote) eqn:Hc.
  - apply Ascii.eqb_eq in Hc. subst c. unfold str1. cbn [String.append].
    change (csv_read CsvInQuoted (String dquote (String dquote ?x)))
      with (push_char dquote (csv_read CsvInQuoted x)).
    by rewrite IH.
  - change (str1 c +:+ ?x) with (String c x). cbn [csv_read]. rewrite Hc.
    by rewrite IH.
Qed.

Lemma csv_read_comma st s :
  st <> CsvInQuoted ->
  csv_read st (String comma s) = begin_field (csv_read CsvStartField s).
Proof. by destruct st. Qed.

Lemma csv_read_crlf st s :
  st <> CsvInQuoted -> st <> CsvStartRecord ->
  csv_read st (crlf +:+ s) = begin_record [EmptyString] (csv_read CsvStartRecord s).
Proof. by destruct st. Qed.

(** A field is read up to what follows it; the reader is then in a state
    in which a comma or the end of the line closes the field. *)
Lemma csv_read_field st v rest :
  st = CsvStartRecord \/ st = CsvStartField ->
  exists st',
    st' <> CsvInQuoted
    /\ (st' = CsvStartRecord -> st = CsvStartRecord /\ csv_field v = EmptyString)
    /\ csv_read st (csv_field v +:+ String comma rest)
       = push_str (csv_field_text v) (csv_read st' (String comma rest))
    /\ csv_read st (csv_field v +:+ crlf +:+ rest)
       = push_str (csv_field_text v) (csv_read st' (crlf +:+ rest)).
Proof.
  intros Hst. unfold csv_field.
  destruct (csv_needs_quote (csv_field_text v)) eqn:Hq.
  - exists CsvQuoteSeen. split; [done|]. split; [done|].
    unfold csv_quoted.
    split.
    + change (String dquote ?x +:+ ?y) with (String dquote (x +:+ y)).
      rewrite append_assoc. change (str1 dquote +:+ ?y) with (String dquote y).
      rewrite <- csv_read_quoted. by destruct Hst as [-> | ->].
    + change (String dquote ?x +:+ ?y) with (String dquote (x +:+ y)).
      rewrite append_assoc. change (str1 dquote +:+ ?y) with (String dquote y).
      rewrite <- csv_read_quoted. by destruct Hst as [-> | ->].
  - destruct (csv_field_text v) as [|c t] eqn:Ht.
    + exists st. split; [by destruct Hst as [-> | ->]|]. by split.
    + exists CsvInField. split; [done|]. split; [done|].
      apply needs_quote_cons in Hq as (Hc & Hd & Hr & Hl & Hq).
      split.
      * change (String c t +:+ ?y) with (String c (t +:+ y)).
        rewrite csv_read_plain_char by (try done; by destruct Hst as [-> | ->]).
        simpl push_str. by rewrite csv_read_plain.
      * change (String c t +:+ ?y) with (String c (t +:+ y)).
        rewrite csv_read_plain_char by (try done; by destruct Hst as [-> | ->]).
        simpl push_str. by rewrite csv_read_plain.
Qed.

Lemma csv_read_fields vs : forall st v rest,
  st = CsvStartField
  \/ (st = CsvStartRecord /\ join "," (map csv_field (v :: vs)) <> EmptyString) ->
  csv_read st (join "," (map csv_field (v :: vs)) +:+ crlf +:+ rest)
  = begin_record (map csv_field_text (v :: vs)) (csv_read CsvStartRecord rest).
Proof.
  induction vs as [|v' vs IH]; intros st v rest Hst.
  - cbn [map join].
    destruct (csv_read_field st v rest) as (st' & Hq & Hs & _ & Hr).
    { destruct Hst as [->|[-> _]]; auto. }
    rewrite Hr, csv_read_crlf.
    + rewrite push_str_begin_record. by rewrite append_nil_r.
    + done.
    + intros ->. destruct (Hs eq_refl) as [-> Hv].
      destruct Hst as [?|[_ Hne]]; [done|]. by apply Hne.
  - change (join "," (map csv_field (v :: v' :: vs)))
      with (csv_field v +:+ "," +:+ join "," (map csv_field (v' :: vs))).
    rewrite !append_assoc.
    change ("," +:+ ?x) with (String comma x).
    destruct (csv_read_field st v
                (join "," (map csv_field (v' :: vs)) +:+ crlf +:+ rest))
      as (st' & Hq & _ & Hc & _).
    { destruct Hst as [->|[-> _]]; auto. }
    rewrite Hc, csv_read_comma by done.
    rewrite (IH CsvStartField v' rest) by auto.
    rewrite begin_field_begin_record, push_str_begin_record.
    by rewrite append_nil_r.
Qed.

Lemma csv_field_empty v : csv_field v = EmptyString -> csv_field_text v = EmptyString.
Proof.
  unfold csv_field. destruct (csv_needs_quote (csv_field_text v)); [|done].
  discriminate.
Qed.

Lemma join_comma_empty (p : string) ps : join "," (p :: ps) = EmptyString -> p = EmptyString /\ ps = [].
Proof.
  destruct ps as [|q ps]; [done|].
  change (join "," (p :: q :: ps)) with (p +:+ "," +:+ join "," (q :: ps)).
  by destruct p.
Qed.

Lemma csv_read_line fields rest :
  csv_read CsvStartRecord (csv_line fields +:+ rest)
  = begin_record (map csv_field_text fields) (csv_read CsvStartRecord rest).
Proof.
  unfold csv_line. destruct fields as [|v vs]; [reflexivity|].
  rewrite bool_decide_eq_true_2 by done. cbn [andb].
  destruct (String.eqb (join "," (map csv_field (v :: vs))) "") eqn:E.
  - apply String.eqb_eq in E. apply join_comma_empty in E as [Hv Hvs].
    apply map_eq_nil in Hvs. subst vs. apply csv_field_empty in Hv.
    cbn [map]. rewrite Hv. reflexivity.
  - apply String.eqb_neq in E. rewrite append_assoc.
    apply (csv_read_fields vs CsvStartRecord v rest). auto.
Qed.

Lemma read_csv_lines rows :
  read_csv (concat_lines (map csv_line rows)) = Some (map (map csv_field_text) rows).
Proof.
  unfold read_csv. induction rows as [|r rows IH]; [reflexivity|].
  cbn [map concat_lines]. by rewrite csv_read_line, IH.
Qed.

End CsvRoundTrip.

(** ** What the tools leave alone *)

Section Frames.
Context {DB : Sqlite3} {OS : Os}.


Lemma get_schema_world table_name (w : world) :
  exists c', snd (get_schema table_name w) = schema_world table_name w c'.
Proof.
  destruct (fetch_total (schema_sql table_name) (w_conn w))
    as [(rows & c' & Hf)|(e & c' & Hf)].
  - rewrite (get_schema_fetches table_name w rows c' Hf). by exists c'.
  - rewrite (get_schema_raises table_name w e c' Hf). by exists c'.
Qed.

Lemma write_lines_world f lines (w : world) :
  w_conn (snd (writerows f lines w)) = w_conn w
  /\ w_heap (snd (writerows f lines w)) = w_heap w
  /\ w_stdout (snd (writerows f lines w)) = w_stdout w.
Proof. by rewrite writerows_write_lines. Qed.

Lemma save_data_to_csv_world data filename (w : world) :
  exists fs',
    snd (save_data_to_csv data filename w) = with_fs (saving filename w) fs'.
Proof.
  unfold save_data_to_csv, save_body, saving, with_open, abspath,
    with_line, with_fs, bind, try_except, raise, lift_fs, print, ret. simpl.
  destruct (isinstance_list data); simpl; [|by eexists].
  destruct (os_getcwd (w_fs w)) as [[cwd|e] fs1]; simpl; [|by eexists].
  destruct (os_makedirs _ fs1) as [[[]|e] fs2]; simpl; [|by eexists].
  destruct (open_w _ fs2) as [[f|e] fs3]; simpl; [|by eexists].
  rewrite writerows_write_lines. simpl.
  destruct (write_lines f _ fs3) as [[[]|e] fs4]; simpl.
  - destruct (file_close f fs4) as [[[]|e] fs5]; simpl; [|by eexists].
    destruct (isabs _); simpl; [by eexists|].
    destruct (os_getcwd fs5) as [[cwd'|e] fs6]; simpl; by eexists.
  - destruct (file_close f fs4) as [[[]|e'] fs5]; simpl; by eexists.
Qed.

End Frames.

(** X1: in a run of tool calls with a shared history list, the list ends
    as what it held followed by exactly the statements passed to
    [execute_sql], in call order: the SQL that [get_schema] runs and the
    CSV exports are not recorded. *)
Theorem history_records_only_execute_sql `{DB : Sqlite3} `{OS : Os}
    (calls : list tool_call) (l : loc) (w : world) old :
  w_heap w !! l = Some old ->
  w_heap (snd (run_tools (Some l) calls w)) !! l = Some (old ++ executed_queries calls)
  /\ length (fst (run_tools (Some l) calls w)) = length calls.
Proof.
  revert w old. induction calls as [|call calls IH]; intros w old Hold; simpl.
  - by rewrite app_nil_r.
  - destruct (call_tool (Some l) call w) as [o w1] eqn:Hcall.
    assert (w_heap w1 !! l
            = Some (old ++ match call with CallExecuteSql q => [q] | _ => [] end)) as H1.
    { replace w1 with (snd (call_tool (Some l) call w)) by by rewrite Hcall.
      destruct call as [q|t|data filename]; simpl.
      - unfold execute_sql_tool. rewrite execute_sql_heap. simpl.
        by rewrite lookup_alter_eq, Hold.
      - unfold get_schema_tool. destruct (get_schema_world t w) as [c' ->].
        simpl. by rewrite app_nil_r.
      - unfold save_csv_tool.
        destruct (save_data_to_csv_world data filename w) as [fs' ->].
        simpl. by rewrite app_nil_r. }
    destruct (IH w1 _ H1) as [IH1 IH2].
    destruct (run_tools (Some l) calls w1) as [os w2]. simpl in *.
    split; [|by rewrite IH2].
    rewrite IH1. f_equal. rewrite <- app_assoc. by destruct call.
Qed.



(** X4: [save_data_to_csv] never touches the database connection nor any
    list object, whatever the data, the file name and the outcome. *)
Theorem save_data_to_csv_frame `{DB : Sqlite3} `{OS : Os} data filename (w : world) :
  w_conn (snd (save_data_to_csv data filename w)) = w_conn w
  /\ w_heap (snd (save_data_to_csv data filename w)) = w_heap w.
Proof. by destruct (save_data_to_csv_world data filename w) as [fs' ->]. Qed.

(** ** Telling the replies apart *)

Section Replies.
Context {DB : Sqlite3} {OS : Os}.

Lemma selects_not_commits query c rows c' c2 c'' :
  engine_selects query c rows c' -> engine_commits query c c2 c'' -> False.
Proof. intros H1 H2. inversion H1; inversion H2; congruence. Qed.

Lemma selects_not_raises query c rows c' e c'' :
  engine_selects query c rows c' -> engine_raises query c e c'' -> False.
Proof. intros H1 H2. inversion H1; inversion H2; congruence. Qed.

Lemma commits_not_raises query c c2 c' e c'' :
  engine_commits query c c2 c' -> engine_raises query c e c'' -> False.
Proof. intros H1 H2. inversion H1; inversion H2; congruence. Qed.

Lemma raises_functional query c e1 c1 e2 c2 :
  engine_raises query c e1 c1 -> engine_raises query c e2 c2 -> e1 = e2.
Proof. intros H1 H2. inversion H1; inversion H2; congruence. Qed.

Lemma rows_start_with_bracket rows :
  exists r, py_str (py_of_rows rows) = String "[" r.
Proof. unfold py_of_rows. eexists. reflexivity. Qed.

End Replies.

(** X5: the string [execute_sql] returns tells which case happened: it
    starts with an opening bracket exactly when rows were fetched, it is
    the fixed success message exactly when a statement without result set
    was committed, and it starts with ["Error: "] exactly when the engine
    raised a database error. *)
Theorem execute_sql_reply_tells_case `{DB : Sqlite3} `{OS : Os} query h (w : world) s :
  fst (execute_sql query h w) = Return s ->
  (startswith s "[" = true <-> exists rows c', engine_selects query (w_conn w) rows c')
  /\ (s = "Query executed successfully (no data returned)."
      <-> exists c2 c', engine_commits query (w_conn w) c2 c')
  /\ (startswith s "Error: " = true
      <-> exists e c', engine_raises query (w_conn w) e c' /\ is_sqlite3_Error e = true).
Proof.
  intros Hs.
  destruct (engine_total query (w_conn w))
    as [(e & c' & Hr)|[(rows & c' & Hr)|(c2 & c' & Hr)]].
  - destruct (is_sqlite3_Error e) eqn:He.
    + rewrite (execute_sql_raises_sqlite _ _ _ _ _ Hr He) in Hs.
      injection Hs as <-. split; [|split].
      * split; [discriminate|]. intros (rows & c'' & H).
        destruct (selects_not_raises _ _ _ _ _ _ H Hr).
      * split; [discriminate|]. intros (c2 & c'' & H).
        destruct (commits_not_raises _ _ _ _ _ _ H Hr).
      * split; [eauto|reflexivity].
    + rewrite (execute_sql_raises_other _ _ _ _ _ Hr He) in Hs. discriminate Hs.
  - rewrite (execute_sql_selects _ _ _ _ _ Hr) in Hs. cbn [fst] in Hs.
    destruct (rows_start_with_bracket rows) as [r Hrows]. rewrite Hrows in Hs.
    injection Hs as <-. split; [|split].
    + split; [eauto|reflexivity].
    + split; [discriminate|]. intros (c2 & c'' & H).
      destruct (selects_not_commits _ _ _ _ _ _ Hr H).
    + split; [discriminate|]. intros (e & c'' & H & _).
      destruct (selects_not_raises _ _ _ _ _ _ Hr H).
  - rewrite (execute_sql_commits query h w c2 c' Hr) in Hs. injection Hs as <-.
    split; [|split].
    + split; [discriminate|]. intros (rows & c'' & H).
      destruct (selects_not_commits _ _ _ _ _ _ H Hr).
    + split; [eauto|reflexivity].
    + split; [discriminate|]. intros (e & c'' & H & _).
      destruct (commits_not_raises _ _ _ _ _ _ Hr H).
Qed.

(** X6: [save_data_to_csv] answers with one of three kinds of string: the
    fixed rejection exactly when the data is not a list, and for a list
    either the success message or ["Error saving CSV: "] with a reason;
    no reply is of two kinds. *)
Theorem save_data_to_csv_reply_kinds `{DB : Sqlite3} `{OS : Os}
    data filename (w : world) :
  exists s,
    fst (save_data_to_csv data filename w) = Return s
    /\ (s = "Error: Data must be a list of tuples or lists."
        <-> isinstance_list data = false)
    /\ (isinstance_list data = true ->
        (exists p, s = "Data saved successfully to: " +:+ p)
        \/ (exists m, s = "Error saving CSV: " +:+ m))
    /\ (startswith s "Data saved successfully to: " = true ->
        startswith s "Error" = false).
Proof.
  assert (forall p, "Data saved successfully to: " +:+ p
                    <> "Error: Data must be a list of tuples or lists.") as Hd
    by (intros p; discriminate).
  assert (forall m, "Error saving CSV: " +:+ m
                    <> "Error: Data must be a list of tuples or lists.") as He
    by (intros m; discriminate).
  assert (forall (s : string) (b : bool),
             ((exists p, s = "Data saved successfully to: " +:+ p)
              \/ (exists m, s = "Error saving CSV: " +:+ m)) ->
             (s = "Error: Data must be a list of tuples or lists." <-> true = false)
             /\ (true = true ->
                 (exists p, s = "Data saved successfully to: " +:+ p)
                 \/ (exists m, s = "Error saving CSV: " +:+ m))
             /\ (startswith s "Data saved successfully to: " = true ->
                 startswith s "Error" = false)) as Hk.
  { intros s _ [[p ->]|[m ->]]; (split; [split; [intros H; exfalso; revert H|discriminate]|]).
    - apply Hd.
    - split; [eauto|intros _; reflexivity].
    - apply He.
    - split; [eauto|discriminate]. }
  unfold save_data_to_csv, save_body, saving, with_open, abspath,
    with_line, with_fs, bind, try_except, raise, lift_fs, print, ret. simpl.
  destruct (isinstance_list data); simpl.
  2: { eexists. split; [reflexivity|]. split; [done|].
       split; [discriminate|intros H; vm_compute in H; discriminate H]. }
  destruct (os_getcwd (w_fs w)) as [[cwd|e] fs1]; simpl;
    [|eexists; split; [reflexivity|apply (Hk _ true); eauto]].
  destruct (os_makedirs _ fs1) as [[[]|e] fs2]; simpl;
    [|eexists; split; [reflexivity|apply (Hk _ true); eauto]].
  destruct (open_w _ fs2) as [[f|e] fs3]; simpl;
    [|eexists; split; [reflexivity|apply (Hk _ true); eauto]].
  rewrite writerows_write_lines. simpl.
  destruct (write_lines f _ fs3) as [[[]|e] fs4]; simpl.
  - destruct (file_close f fs4) as [[[]|e] fs5]; simpl;
      [|eexists; split; [reflexivity|apply (Hk _ true); eauto]].
    destruct (isabs _); simpl;
      [eexists; split; [reflexivity|apply (Hk _ true); eauto]|].
    destruct (os_getcwd fs5) as [[cwd'|e] fs6]; simpl;
      eexists; (split; [reflexivity|apply (Hk _ true); eauto]).
  - destruct (file_close f fs4) as [[[]|e'] fs5]; simpl;
      eexists; (split; [reflexivity|apply (Hk _ true); eauto]).
Qed.

(** ** The rows of the catalog *)

Lemma column_pair_ok (col : row) :
  (3 <= length col)%nat ->
  column_pair col
  = Return (VTuple [py_of_sql (nth 1 col SqlNull); py_of_sql (nth 2 col SqlNull)]).
Proof.
  destruct col as [|a [|b [|c col]]]; simpl; intros H; try lia. reflexivity.
Qed.

Lemma column_pair_short (col : row) :
  (length col < 3)%nat ->
  column_pair col = Raise (OtherException "IndexError" "tuple index out of range").
Proof.
  destruct col as [|a [|b [|c col]]]; simpl; intros H; try lia; reflexivity.
Qed.

Lemma column_pairs_ok (columns : list row) :
  Forall (fun col => (3 <= length col)%nat) columns ->
  comprehension column_pair columns
  = Return (map (fun col => VTuple [py_of_sql (nth 1 col SqlNull);
                                    py_of_sql (nth 2 col SqlNull)]) columns).
Proof.
  induction 1 as [|col columns Hc _ IH]; [reflexivity|].
  cbn [comprehension map]. by rewrite (column_pair_ok col Hc), IH.
Qed.

Lemma column_pairs_short (columns : list row) :
  Exists (fun col => (length col < 3)%nat) columns ->
  comprehension column_pair columns
  = Raise (OtherException "IndexError" "tuple index out of range").
Proof.
  induction 1 as [col columns Hc|col columns _ IH]; cbn [comprehension].
  - by rewrite (column_pair_short col Hc).
  - destruct (Nat.lt_ge_cases (length col) 3) as [Hs|Hl].
    + by rewrite (column_pair_short col Hs).
    + by rewrite (column_pair_ok col Hl), IH.
Qed.

(** X7: for a table name, [get_schema] reads the second and third field of
    every fetched row: when every row has at least three fields it returns
    the rendering of the (name, type) pairs in row order; when some row is
    shorter it raises an [IndexError], which nothing catches. *)
Theorem get_schema_reads_name_and_type `{DB : Sqlite3} `{OS : Os}
    (t : string) (w : world) columns c' :
  t <> "" ->
  engine_fetches (table_info_sql t) (w_conn w) columns c' ->
  (Forall (fun col => (3 <= length col)%nat) columns ->
   fst (get_schema (Some t) w)
   = Return (py_str (VList (map (fun col => VTuple [py_of_sql (nth 1 col SqlNull);
                                                     py_of_sql (nth 2 col SqlNull)])
                               columns))))
  /\ (Exists (fun col => (length col < 3)%nat) columns ->
      fst (get_schema (Some t) w)
      = Raise (OtherException "IndexError" "tuple index out of range")).
Proof.
  intros Ht Hf.
  assert (schema_sql (Some t) = table_info_sql t) as Hsql
    by (destruct t; [done|reflexivity]).
  rewrite <- Hsql in Hf. rewrite (get_schema_fetches (Some t) w columns c' Hf).
  destruct t as [|c t]; [done|]. cbn [schema_items fst]. split; intros H.
  - by rewrite (column_pairs_ok columns H).
  - by rewrite (column_pairs_short columns H).
Qed.

(** X8: [get_schema] keeps nothing between calls: its answer depends on
    the connection alone, so when the catalog query leaves the connection
    as it was, asking again gives the same answer. *)
Theorem get_schema_keeps_no_cache `{DB : Sqlite3} `{OS : Os}
    table_name (w : world) rows :
  engine_fetches (schema_sql table_name) (w_conn w) rows (w_conn w) ->
  fst (get_schema table_name (snd (get_schema table_name w)))
  = fst (get_schema table_name w)
  /\ (forall w2 : world,
        w_conn w2 = w_conn w ->
        fst (get_schema table_name w2) = fst (get_schema table_name w)).
Proof.
  intros Hf.
  assert (forall w2 : world,
             w_conn w2 = w_conn w ->
             fst (get_schema table_name w2) = fst (get_schema table_name w)) as Hdep.
  { intros w2 Hc.
    rewrite (get_schema_fetches table_name w rows (w_conn w) Hf).
    rewrite <- Hc in Hf.
    by rewrite (get_schema_fetches table_name w2 rows (w_conn w2) Hf). }
  split; [|exact Hdep].
  apply Hdep. by rewrite (get_schema_fetches table_name w rows (w_conn w) Hf).
Qed.

(** ** The file name and the path *)

Lemma csv_extension_appended filename : csv_extension_present (filename +:+ ".csv").
Proof. exists filename, "c"%char, "s"%char, "v"%char. auto. Qed.

Lemma ensure_csv_has_extension filename : csv_extension_present (ensure_csv filename).
Proof.
  unfold ensure_csv. destruct (endswith (lower filename) ".csv") eqn:E; simpl.
  - by apply endswith_lower_csv.
  - apply csv_extension_appended.
Qed.

(** X9: the name the export writes to always ends in [.csv], in whatever
    case; it starts with the name given, unchanged; and ensuring the
    extension twice is ensuring it once. *)
Theorem ensure_csv_extension filename :
  csv_extension_present (ensure_csv filename)
  /\ startswith (ensure_csv filename) filename = true
  /\ ensure_csv (ensure_csv filename) = ensure_csv filename.
Proof.
  assert (forall s t, startswith (s +:+ t) s = true) as Hpre.
  { induction s as [|c s IH]; intros t; [reflexivity|].
    simpl. by rewrite Ascii.eqb_refl, IH. }
  pose proof (ensure_csv_has_extension filename) as Hp.
  split; [exact Hp|]. split.
  - unfold ensure_csv. destruct (negb _); [apply Hpre|].
    rewrite <- (append_nil_r filename) at 1. apply Hpre.
  - by apply ensure_csv_spec.
Qed.

(** X10: a file name that starts with a slash takes the place of the whole
    path: the [files] directory is made but not written to, and a
    successful export reports and writes the file name itself, extension
    ensured. *)
Theorem save_data_to_csv_absolute_name `{DB : Sqlite3} `{OS : Os}
    data filename (w : world) cwd fs' :
  startswith filename "/" = true ->
  isinstance_list data = true ->
  export_succeeds data filename (w_fs w) cwd fs' ->
  csv_path cwd filename = ensure_csv filename
  /\ save_data_to_csv data filename w =
       (Return ("Data saved successfully to: " +:+ normpath (ensure_csv filename)),
        with_fs (saving filename w) fs').
Proof.
  intros Hf Hl Hs.
  assert (csv_path cwd filename = ensure_csv filename) as Hp.
  { unfold csv_path, path_join at 1. by rewrite ensure_csv_relative, Hf. }
  split; [exact Hp|]. rewrite <- Hp. by apply save_succeeds.
Qed.

(** X11: exporting an empty list writes nothing: the file is opened, which
    creates or empties it, and closed, and the tool reports success. *)
Theorem save_data_to_csv_empty_list `{DB : Sqlite3} `{OS : Os}
    filename (w : world) cwd fs1 fs2 f fs3 fs' :
  os_getcwd (w_fs w) = (Return cwd, fs1) ->
  isabs cwd = true ->
  os_makedirs (path_join cwd "files") fs1 = (Return tt, fs2) ->
  open_w (csv_path cwd filename) fs2 = (Return f, fs3) ->
  file_close f fs3 = (Return tt, fs') ->
  save_data_to_csv (VList []) filename w =
    (Return ("Data saved successfully to: " +:+ normpath (csv_path cwd filename)),
     with_fs (saving filename w) fs').
Proof.
  intros H1 Habs H2 H3 H4. apply save_succeeds; [reflexivity|].
  by eapply export_written.
Qed.

(** X12: what the export writes can be read back: the lines written for a
    list, one after the other, are the CSV text of exactly its rows, each
    field as the text the writer gave it ([None] as the empty text),
    whatever commas, quotes and line breaks the fields hold. *)
Theorem export_reads_back (data : pyval) :
  read_csv (concat_lines (csv_lines data)) = Some (csv_texts data)
  /\ length (csv_lines data) = length (list_items data).
Proof.
  unfold csv_lines, csv_texts. split.
  - by rewrite read_csv_lines, map_map.
  - by rewrite !length_map.
Qed.

(** ** Plain file names stay in the directory *)

Section PlainNames.

Lemma contains_app c a b : contains c (a +:+ b) = contains c a || contains c b.
Proof.
  induction a as [|d a IH]; [reflexivity|]. cbn [String.append contains].
  destruct (Ascii.eqb c d); [reflexivity|exact IH].
Qed.

Lemma split_slash_app a : forall acc b,
  split_slash acc (a +:+ String slash b) = split_slash acc a ++ split_slash "" b.
Proof.
  induction a as [|c a IH]; intros acc b; [reflexivity|].
  cbn [String.append split_slash]. destruct (Ascii.eqb c slash).
  - by rewrite IH.
  - apply IH.
Qed.

Lemma split_slash_plain b : forall acc,
  contains slash b = false -> split_slash acc b = [rev_string acc +:+ b].
Proof.
  induction b as [|c b IH]; intros acc H; cbn [split_slash].
  - by rewrite append_nil_r.
  - cbn [contains] in H. rewrite (Ascii.eqb_sym c slash).
    destruct (Ascii.eqb slash c); [discriminate H|].
    rewrite (IH _ H). cbn [rev_string]. rewrite append_assoc. reflexivity.
Qed.

(** A component that is neither empty, nor a dot, nor two. *)
Lemma norm_comps_snoc i name xs : forall nc,
  String.eqb name "" = false -> String.eqb name "." = false ->
  String.eqb name ".." = false ->
  norm_comps i nc (xs ++ [name]) = norm_comps i nc xs ++ [name].
Proof.
  intros nc H1 H2 H3. revert nc.
  induction xs as [|x xs IH]; intros nc.
  - simpl. by rewrite H1, H2, H3.
  - cbn [app norm_comps].
    destruct (String.eqb x "" || String.eqb x "."); [apply IH|].
    destruct (_ || _ || _); apply IH.
Qed.

Lemma join_snoc (l : list string) x :
  l <> [] -> join "/" (l ++ [x]) = join "/" l +:+ "/" +:+ x.
Proof.
  induction l as [|p l IH]; intros Hl; [done|].
  destruct l as [|q l]; [reflexivity|].
  change (join "/" ((p :: q :: l) ++ [x])) with (p +:+ "/" +:+ join "/" ((q :: l) ++ [x])).
  rewrite IH by done.
  change (join "/" (p :: q :: l)) with (p +:+ "/" +:+ join "/" (q :: l)).
  by rewrite !append_assoc.
Qed.

Lemma startswith_app_long q : forall a b,
  (String.length q <= String.length a)%nat ->
  startswith (a +:+ b) q = startswith a q.
Proof.
  induction q as [|c q IH]; intros a b H; [reflexivity|].
  destruct a as [|d a]; [simpl in H; lia|].
  simpl in *. rewrite IH by lia. reflexivity.
Qed.

Lemma endswith_slash s : endswith s "/" = true -> exists x, s = x +:+ "/".
Proof.
  unfold endswith. change (rev_string "/") with "/". intros H.
  destruct (rev_string s) as [|c r] eqn:E; [discriminate H|].
  cbn [startswith] in H. apply andb_prop in H as [Hc _]. apply Ascii.eqb_eq in Hc. subst c.
  exists (rev_string r). rewrite <- (rev_string_involutive s), E. reflexivity.
Qed.

Lemma files_dir_decomposed cwd :
  isabs cwd = true -> exists x, path_join cwd "files" = x +:+ "/files".
Proof.
  intros Habs. unfold path_join. change (startswith "files" "/") with false.
  cbv beta iota.
  assert (String.eqb cwd "" = false) as -> by (by destruct cwd).
  destruct (endswith cwd "/") eqn:E; simpl.
  - destruct (endswith_slash cwd E) as [x ->]. exists x. by rewrite append_assoc.
  - by exists cwd.
Qed.

(** The slashes an absolute path starts with, as [normpath] keeps them. *)
Lemma normpath_absolute p :
  isabs p = true ->
  normpath p =
    (if startswith p "//" && negb (startswith p "///") then "//" else "/")
    +:+ join "/"
          (norm_comps
             (if startswith p "//" && negb (startswith p "///") then 2%nat else 1%nat)
             [] (split_slash "" p)).
Proof.
  intros Habs. unfold normpath, isabs in *.
  assert (String.eqb p "" = false) as -> by (by destruct p).
  rewrite Habs.
  by destruct (startswith p "//" && negb (startswith p "///")).
Qed.

(** Appending a plain component to a path below [files]. *)
Lemma normpath_snoc x name :
  isabs (x +:+ "/files") = true ->
  contains slash name = false ->
  String.eqb name "" = false -> String.eqb name "." = false ->
  String.eqb name ".." = false ->
  normpath ((x +:+ "/files") +:+ "/" +:+ name)
  = normpath (x +:+ "/files") +:+ "/" +:+ name.
Proof.
  intros Habs Hs H1 H2 H3.
  assert (split_slash "" (x +:+ "/files") = split_slash "" x ++ ["files"]) as Hsplit.
  { change "/files" with (String slash "files"). by rewrite split_slash_app. }
  remember (x +:+ "/files") as a eqn:Ha.
  assert (3 <= String.length a)%nat as Hlen.
  { subst a. rewrite string_length_app. simpl. lia. }
  assert (isabs (a +:+ "/" +:+ name) = true) as Habs'.
  { unfold isabs in *. by apply startswith_app. }
  rewrite (normpath_absolute a Habs), (normpath_absolute _ Habs').
  rewrite !startswith_app_long by (simpl; lia).
  change ("/" +:+ name) with (String slash name) at 1.
  rewrite split_slash_app, (split_slash_plain name "" Hs), Hsplit.
  change (rev_string "" +:+ name) with name.
  rewrite (norm_comps_snoc _ name) by done.
  rewrite (norm_comps_snoc _ "files") by done.
  rewrite join_snoc.
  - by rewrite !append_assoc.
  - by destruct (norm_comps _ [] (split_slash "" x)).
Qed.

End PlainNames.

Lemma plain_name_relative filename :
  contains slash filename = false -> startswith filename "/" = false.
Proof.
  destruct filename as [|c s]; [reflexivity|]. unfold slash.
  cbn [contains startswith].
  destruct (Ascii.eqb "/" c); [discriminate|reflexivity].
Qed.

Lemma ensure_csv_component filename :
  contains slash filename = false ->
  contains slash (ensure_csv filename) = false
  /\ String.eqb (ensure_csv filename) "" = false
  /\ String.eqb (ensure_csv filename) "." = false
  /\ String.eqb (ensure_csv filename) ".." = false.
Proof.
  intros Hs. split.
  - unfold ensure_csv. destruct (negb _); [|exact Hs].
    rewrite contains_app, Hs. reflexivity.
  - assert (4 <= String.length (ensure_csv filename))%nat as Hlen.
    { destruct (ensure_csv_has_extension filename)
        as (stem & c & s & v & -> & _).
      rewrite string_length_app. simpl. lia. }
    repeat split;
      match goal with |- String.eqb _ ?t = false =>
        destruct (String.eqb (ensure_csv filename) t) eqn:E; [|reflexivity];
        apply String.eqb_eq in E; rewrite E in Hlen; simpl in Hlen; lia
      end.
Qed.

(** X13: for a file name without a slash a successful export writes, and
    reports, a path directly inside the [files] directory: the normalized
    directory, a slash, and the name with its extension. *)
Theorem save_data_to_csv_plain_name `{DB : Sqlite3} `{OS : Os}
    data filename (w : world) cwd fs' :
  contains slash filename = false ->
  isinstance_list data = true ->
  export_succeeds data filename (w_fs w) cwd fs' ->
  csv_path cwd filename = path_join cwd "files" +:+ "/" +:+ ensure_csv filename
  /\ contains slash (ensure_csv filename) = false
  /\ save_data_to_csv data filename w =
       (Return ("Data saved successfully to: "
                +:+ normpath (path_join cwd "files") +:+ "/" +:+ ensure_csv filename),
        with_fs (saving filename w) fs').
Proof.
  intros Hs Hl He.
  pose proof (csv_path_relative cwd filename (plain_name_relative filename Hs)) as Hp.
  destruct (ensure_csv_component filename Hs) as (Hc & H1 & H2 & H3).
  split; [exact Hp|]. split; [exact Hc|].
  rewrite (save_succeeds data filename w cwd fs' Hl He). rewrite Hp.
  assert (isabs cwd = true) as Habs by (by inversion He).
  destruct (files_dir_decomposed cwd Habs) as [x Hx].
  pose proof (isabs_path_join cwd "files" Habs) as Hd.
  rewrite Hx in Hd |- *.
  by rewrite (normpath_snoc x (ensure_csv filename) Hd Hc H1 H2 H3).
Qed.

(** ** The export on the reference file system *)

Lemma reffs_write_lines lines : forall (s : RefFs.fs) (p : string) c,
  RefFs.fs_nodes s !! p = Some (RefFs.File c) ->
  write_lines (OS := RefFs.os) p lines s
  = (Return tt,
     RefFs.Fs (RefFs.fs_cwd s)
       (<[p := RefFs.File (c +:+ concat_lines lines)]> (RefFs.fs_nodes s))).
Proof.
  induction lines as [|line lines IH]; intros s p c Hp.
  - simpl. rewrite append_nil_r, insert_id by done. by destruct s.
  - cbn [write_lines concat_lines]. unfold file_write, RefFs.os, RefFs.write.
    rewrite Hp.
    rewrite (IH _ p (c +:+ line)) by (simpl; apply lookup_insert_eq).
    simpl. by rewrite insert_insert_eq, append_assoc.
Qed.

(** X14: on the reference file system a successful export leaves in the
    file exactly the CSV lines of the data, whatever the file held before,
    and the rows are read back from it. *)
Theorem save_data_to_csv_overwrites `{DB : Sqlite3}
    data filename (w : @world DB RefFs.os) cwd fs' :
  isinstance_list data = true ->
  export_succeeds (OS := RefFs.os) data filename (w_fs w) cwd fs' ->
  w_fs (snd (save_data_to_csv data filename w)) = fs'
  /\ RefFs.fs_nodes fs' !! csv_path cwd filename
     = Some (RefFs.File (concat_lines (csv_lines data)))
  /\ read_csv (concat_lines (csv_lines data)) = Some (csv_texts data).
Proof.
  intros Hl He. split; [|split].
  - by rewrite (save_succeeds data filename w cwd fs' Hl He).
  - inversion He as [? fs1 fs2 f fs3 fs4 ? H1 Habs H2 H3 H4 H5]; subst.
    simpl in H3, H4, H5. unfold RefFs.open_for_write in H3.
    assert (f = csv_path cwd filename
            /\ RefFs.fs_nodes fs3 !! csv_path cwd filename = Some (RefFs.File ""))
      as [-> Hf].
    { destruct (RefFs.fs_nodes fs2 !! csv_path cwd filename) as [[|?]|];
        try discriminate H3;
        (destruct (RefFs.fs_nodes fs2 !! RefFs.dirname (csv_path cwd filename))
           as [[|?]|]; try discriminate H3);
        injection H3 as <- <-; simpl; by rewrite lookup_insert_eq. }
    rewrite (reffs_write_lines _ fs3 _ "" Hf) in H4.
    injection H4 as <-. injection H5 as <-. simpl. apply lookup_insert_eq.
  - unfold csv_lines, csv_texts. by rewrite read_csv_lines, map_map.
Qed.

(** ** More runs on the reference systems *)

Lemma history_records_only_execute_sql_witness :
  w_heap (snd (run_tools (Some 0%nat)
                 [CallGetSchema None; CallExecuteSql "SELECT 1";
                  CallSaveCsv (VStr "rows") "out"; CallExecuteSql "SELEC 1"]
                 (ref_world RefDb.users_db {[ 0%nat := ["CREATE TABLE t (x)"] ]})))
    !! 0%nat
  = Some ["CREATE TABLE t (x)"; "SELECT 1"; "SELEC 1"].
Proof.
  exact (proj1 (history_records_only_execute_sql
                  [CallGetSchema None; CallExecuteSql "SELECT 1";
                   CallSaveCsv (VStr "rows") "out"; CallExecuteSql "SELEC 1"]
                  0%nat
                  (ref_world RefDb.users_db {[ 0%nat := ["CREATE TABLE t (x)"] ]})
                  ["CREATE TABLE t (x)"] eq_refl)).
Defined.

Lemma execute_sql_reply_tells_case_witness :
  fst (execute_sql "SELECT * FROM users" None (ref_world RefDb.users_db ∅))
  = Return "[(1, 'Alice'), (2, 'Bob')]"
  /\ exists rows c',
       engine_selects (DB := RefDb.engine) "SELECT * FROM users" RefDb.users_db rows c'.
Proof.
  split; [reflexivity|].
  exact (proj1 (proj1 (execute_sql_reply_tells_case "SELECT * FROM users" None
                         (ref_world RefDb.users_db ∅)
                         "[(1, 'Alice'), (2, 'Bob')]" eq_refl)) eq_refl).
Defined.

Lemma get_schema_reads_name_and_type_witness :
  fst (get_schema (Some "users") (ref_world RefDb.users_db ∅))
  = Return "[('id', 'INTEGER'), ('name', 'TEXT')]".
Proof.
  refine (proj1 (get_schema_reads_name_and_type "users" (ref_world RefDb.users_db ∅)
                   (RefDb.table_info_rows 0 RefDb.users_cols) RefDb.users_db _ _) _).
  - done.
  - eapply fetches_rows; reflexivity.
  - repeat constructor; simpl; lia.
Defined.

Lemma get_schema_keeps_no_cache_witness :
  fst (get_schema None (snd (get_schema None (ref_world RefDb.users_db ∅))))
  = fst (get_schema None (ref_world RefDb.users_db ∅)).
Proof.
  refine (proj1 (get_schema_keeps_no_cache None (ref_world RefDb.users_db ∅)
                   [[SqlText "users"]] _)).
  eapply fetches_rows; reflexivity.
Defined.

Lemma save_data_to_csv_absolute_name_witness :
  csv_path "/home/user" "/home/user/out" = "/home/user/out.csv"
  /\ fst (save_data_to_csv alice_bob "/home/user/out" (ref_world RefDb.users_db ∅))
     = Return "Data saved successfully to: /home/user/out.csv".
Proof.
  assert (exists fs',
             export_succeeds (OS := RefFs.os) alice_bob "/home/user/out" RefFs.home
               "/home/user" fs') as [fs' He].
  { eexists. eapply export_written; reflexivity. }
  destruct (save_data_to_csv_absolute_name alice_bob "/home/user/out"
              (ref_world RefDb.users_db ∅) "/home/user" fs' eq_refl eq_refl He)
    as [H1 H2].
  split; [exact H1|exact (f_equal fst H2)].
Defined.

Lemma save_data_to_csv_empty_list_witness :
  exists fs',
    save_data_to_csv (VList []) "empty" (ref_world RefDb.users_db ∅)
    = (Return "Data saved successfully to: /home/user/files/empty.csv",
       with_fs (saving "empty" (ref_world RefDb.users_db ∅)) fs')
    /\ RefFs.fs_nodes fs' !! "/home/user/files/empty.csv" = Some (RefFs.File "").
Proof.
  eexists. split.
  - refine (save_data_to_csv_empty_list "empty" (ref_world RefDb.users_db ∅)
              "/home/user" _ _ _ _ _ _ eq_refl _ _ _); reflexivity.
  - vm_compute. reflexivity.
Defined.

Lemma save_data_to_csv_plain_name_witness :
  fst (save_data_to_csv alice_bob "out" (ref_world RefDb.users_db ∅))
  = Return "Data saved successfully to: /home/user/files/out.csv".
Proof.
  assert (exists fs',
             export_succeeds (OS := RefFs.os) alice_bob "out" RefFs.home
               "/home/user" fs') as [fs' He].
  { eexists. eapply export_written; reflexivity. }
  exact (f_equal fst
           (proj2 (proj2 (save_data_to_csv_plain_name alice_bob "out"
                            (ref_world RefDb.users_db ∅) "/home/user" fs'
                            eq_refl eq_refl He)))).
Defined.

Lemma save_data_to_csv_overwrites_witness :
  RefFs.fs_nodes RefFs.home_with_export !! "/home/user/files/out.csv"
  = Some (RefFs.File "old,content")
  /\ exists fs',
       w_fs (snd (save_data_to_csv alice_bob "out"
                    (@World RefDb.engine RefFs.os RefDb.users_db ∅ []
                       RefFs.home_with_export))) = fs'
       /\ RefFs.fs_nodes fs' !! "/home/user/files/out.csv"
          = Some (RefFs.File ("1,Alice" +:+ crlf +:+ "2,Bob" +:+ crlf))
       /\ read_csv ("1,Alice" +:+ crlf +:+ "2,Bob" +:+ crlf)
          = Some [["1"; "Alice"]; ["2"; "Bob"]].
Proof.
  split; [vm_compute; reflexivity|].
  eexists.
  refine (save_data_to_csv_overwrites alice_bob "out"
            (@World RefDb.engine RefFs.os RefDb.users_db ∅ [] RefFs.home_with_export)
            "/home/user" _ eq_refl _).
  eapply export_written; reflexivity.
Defined.
